(** * pyfixest: request validation, estimation entry points and the ritest tests

    A shallow embedding of [pyfixest/estimation/estimation.py] and of
    [tests/test_ritest.py].  Python values are a tagged union, exceptions
    are an explicit result, and the calls into the estimation engine
    (class [FixestMulti], class [Feols], polars) are an interface whose
    invocations are recorded in a trace of events, so that "raised before
    any model object is constructed" is a statement about that trace. *)

From Stdlib Require Import ZArith QArith Qabs List String Ascii Bool Lia.
From stdpp Require Import base option list gmap strings.

Local Open Scope string_scope.

(** ** Python values *)

Module Py.

(** A Python [float]: a finite value, an infinity, or NaN.  Finite values
    are kept as rationals; only their order is used below. *)
Inductive pyfloat : Type :=
  | FFin (q : Q)
  | FPosInf
  | FNegInf
  | FNaN.

(** IEEE comparison [a <= b]: false as soon as one side is NaN. *)
Definition fle (a b : pyfloat) : bool :=
  match a, b with
  | FNaN, _ | _, FNaN => false
  | FNegInf, _ => true
  | _, FPosInf => true
  | FPosInf, _ => false
  | _, FNegInf => false
  | FFin x, FFin y => Qle_bool x y
  end.

Definition fge (a b : pyfloat) : bool := fle b a.

(** A pandas or polars data frame: its column labels and its cells. *)
Record DataFrame : Type := mkDF {
  columns : list string;
  cells : list (list pyfloat)
}.

Inductive pyval : Type :=
  | PyNone
  | PyBool (b : bool)
  | PyInt (z : Z)
  | PyFloat (f : pyfloat)
  | PyStr (s : string)
  | PyDict (d : list (string * string))
  | PyPandas (df : DataFrame)
  | PyPolars (df : DataFrame)
  | PyObject (cls : string).

(** [isinstance(v, str)], [isinstance(v, float)], [isinstance(v, bool)];
    [bool] is a subclass of [int], not of [float]. *)
Definition is_str (v : pyval) : bool :=
  match v with PyStr _ => true | _ => false end.
Definition is_float (v : pyval) : bool :=
  match v with PyFloat _ => true | _ => false end.
Definition is_bool (v : pyval) : bool :=
  match v with PyBool _ => true | _ => false end.
Definition is_none (v : pyval) : bool :=
  match v with PyNone => true | _ => false end.
Definition is_dict (v : pyval) : bool :=
  match v with PyDict _ => true | _ => false end.
Definition is_pandas (v : pyval) : bool :=
  match v with PyPandas _ => true | _ => false end.
Definition is_polars (v : pyval) : bool :=
  match v with PyPolars _ => true | _ => false end.

(** The numeric value a comparison with an [int] literal sees. *)
Definition num (v : pyval) : option pyfloat :=
  match v with
  | PyFloat f => Some f
  | PyInt z => Some (FFin (inject_Z z))
  | PyBool b => Some (FFin (if b then 1 else 0)%Q)
  | _ => None
  end.

(** [v <= q] and [v >= q] for a literal [q]. *)
Definition le_lit (v : pyval) (q : Q) : bool :=
  match num v with Some f => fle f (FFin q) | None => false end.
Definition ge_lit (v : pyval) (q : Q) : bool :=
  match num v with Some f => fge f (FFin q) | None => false end.

(** [v == s] for a string literal [s]. *)
Definition eq_str (v : pyval) (s : string) : bool :=
  match v with PyStr t => String.eqb t s | _ => false end.

(** [v in [s1, ..., sn]] for a list of string literals. *)
Definition in_strs (v : pyval) (l : list string) : bool :=
  existsb (eq_str v) l.

(** Truth value of [v], for the values that have one. *)
Definition truthy (v : pyval) : bool :=
  match v with
  | PyNone => false
  | PyBool b => b
  | PyInt z => negb (z =? 0)%Z
  | PyFloat (FFin q) => negb (Qeq_bool q 0)
  | PyFloat _ => true
  | PyStr s => negb (String.eqb s "")
  | PyDict d => match d with [] => false | _ => true end
  | _ => true
  end.

(** [data.columns] of a frame of either library. *)
Definition columns_of (v : pyval) : option (list string) :=
  match v with
  | PyPandas df | PyPolars df => Some (columns df)
  | _ => None
  end.

(** Exceptions: the class and the message.  A message built by an
    f-string keeps the interpolated values as values. *)
Inductive exn_class : Type :=
  | TypeError
  | ValueError
  | AssertionError
  | NotImplementedError
  | FeatureDeprecationError
  | NameError
  | UnboundLocalError
  | IndexError
  | AttributeError
  | OtherError (name : string).

Inductive msgpart : Type :=
  | Lit (s : string)
  | Val (v : pyval).

Record exn : Type := mkExn {
  exn_cls : exn_class;
  exn_msg : list msgpart
}.

(** [issubclass(c, NameError)]: [UnboundLocalError] derives from
    [NameError]. *)
Definition is_NameError (c : exn_class) : bool :=
  match c with NameError | UnboundLocalError => true | _ => false end.

(** *** The string methods used on formulas *)

(** [s.split(c)] for a one-character separator. *)
Fixpoint split_on (c : ascii) (s : string) : list string :=
  match s with
  | EmptyString => [EmptyString]
  | String a rest =>
      if Ascii.eqb a c then EmptyString :: split_on c rest
      else match split_on c rest with
           | hd :: tl => String a hd :: tl
           | [] => [String a EmptyString]
           end
  end.

(** [s.replace(c, "")]. *)
Fixpoint remove_char (c : ascii) (s : string) : string :=
  match s with
  | EmptyString => EmptyString
  | String a rest =>
      if Ascii.eqb a c then remove_char c rest
      else String a (remove_char c rest)
  end.

(** [s.replace(c, d)] for one-character [c] and [d]. *)
Fixpoint replace_char (c d : ascii) (s : string) : string :=
  match s with
  | EmptyString => EmptyString
  | String a rest =>
      String (if Ascii.eqb a c then d else a) (replace_char c d rest)
  end.

End Py.
Export Py.

(** ** Effects: a trace of engine calls and an exception result *)

Inductive event : Type :=
  | EvNewFixestMulti
  | EvPrepare (estimation : string)
  | EvEstimate
  | EvFetch
  | EvPolars (op : string)
  | EvVcov (kind : string)
  | EvWarn (msg : string)
  | EvBootstrap (reps seed : pyval)
  | EvInference.

Definition M (A : Type) : Type := (list event * (exn + A))%type.

Definition ret {A} (a : A) : M A := ([], inr a).
Definition raise {A} (c : exn_class) (msg : list msgpart) : M A :=
  ([], inl (mkExn c msg)).
Definition bind {A B} (m : M A) (k : A -> M B) : M B :=
  match m with
  | (t, inl e) => (t, inl e)
  | (t, inr a) => let '(t', r) := k a in ((t ++ t')%list, r)
  end.
(** A call into the engine: the call is recorded, then it returns or
    raises. *)
Definition call {A} (ev : event) (r : exn + A) : M A := ([ev], r).

#[global] Instance M_ret : MRet M := @ret.
#[global] Instance M_bind : MBind M := fun A B k m => bind m k.

Definition trace {A} (m : M A) : list event := fst m.
Definition outcome {A} (m : M A) : exn + A := snd m.

(** [if b: raise c(msg)]. *)
Definition raise_if (b : bool) (c : exn_class) (msg : list msgpart) : M unit :=
  if b then raise c msg else ret tt.

(** The truth value a condition [if v:] asks for: pandas and polars
    frames refuse to give one. *)
Definition truth (v : pyval) : M bool :=
  match v with
  | PyPandas _ | PyPolars _ =>
      raise ValueError [Lit "The truth value of a DataFrame is ambiguous."]
  | _ => ret (truthy v)
  end.

(** [for x in l: body(x)]. *)
Fixpoint for_each {A} (l : list A) (body : A -> M unit) : M unit :=
  match l with
  | [] => ret tt
  | x :: rest => body x ;; for_each rest body
  end.

(** ** The estimation engine behind the entry points

    [FixestMulti], [Feols], polars and the numpy formulas of the
    compressed variance are not part of [estimation.py]; the entry points
    only call them.  The class below is that interface: each method either
    returns or raises.  [python_debug] is the interpreter's [__debug__]
    ([False] under [python -O]), which decides whether an [assert]
    statement is executed. *)

Class Engine : Type := {
  python_debug : bool;
  FixestMulti : Type;
  Feols : Type;
  (** the default [ssc()] and the function object [ssc] itself *)
  ssc_default : pyval;
  ssc_function : pyval;
  (** [FixestMulti(data=..., copy_data=..., store_data=..., lean=...,
      fixef_tol=..., weights_type=..., use_compression=...,
      use_mundlak=...)]; [fepois] omits [use_mundlak] *)
  FixestMulti_new :
    pyval -> pyval -> pyval -> pyval -> pyval -> pyval -> pyval ->
    option pyval -> exn + FixestMulti;
  (** [fixest._prepare_estimation(estimation, fml, vcov, weights, ssc,
      fixef_rm, drop_intercept)] *)
  _prepare_estimation :
    FixestMulti -> string -> pyval -> pyval -> pyval -> pyval -> pyval ->
    pyval -> exn + FixestMulti;
  (** [fixest._estimate_all_models(vcov, iwls_tol=..., iwls_maxiter=...,
      collin_tol=...)]; [feols] omits the two [iwls] arguments *)
  _estimate_all_models :
    FixestMulti -> pyval -> option pyval -> option pyval -> pyval ->
    exn + FixestMulti;
  _is_iv : FixestMulti -> bool;
  _is_multiple_estimation : FixestMulti -> bool;
  (** [fixest.fetch_model(i, print_fml=...)] *)
  fetch_model : FixestMulti -> Z -> bool -> exn + Feols
}.

(** What [feols] and [fepois] return: [Union[Feols, FixestMulti]]. *)
Inductive fitted `{Engine} : Type :=
  | RetFeols (f : Feols)
  | RetMulti (m : FixestMulti).

(** [assert cond, msg]: skipped when [__debug__] is false. *)
Definition py_assert `{Engine} (cond : bool) (msg : string) : M unit :=
  if python_debug then raise_if (negb cond) AssertionError [Lit msg]
  else ret tt.

(** ** [estimation.py] *)

Section Estimation.
Context `{Eng : Engine}.

Definition msg_fixef_tol_type : string :=
  "The function argument `fixef_tol` needs to be of
            type float.
            ".
Definition msg_fixef_tol_low : string :=
  "
            The function argument `fixef_tol` needs to be of
            strictly larger than 0.
            ".
Definition msg_fixef_tol_high : string :=
  "
            The function argument `fixef_tol` needs to be of
            strictly smaller than 1.
            ".
Definition msg_weights_type_pre : string :=
  "
            The `weights_type` argument must be of type `aweights`
            (for analytical / precision weights) or `fweights`
            (for frequency weights) but it is ".
Definition msg_weights_type_post : string :=
  ".
            ".
Definition msg_compression_weights : string :=
  "Compressed regression is not supported with weights.".
Definition msg_iv_poisson : string :=
  "IV Estimation is not supported for Poisson Regression".
Definition msg_weights_column : string :=
  "weights must be a column in data".

Definition _estimation_input_checks
    (fml data vcov weights ssc fixef_rm collin_tol copy_data store_data
     lean fixef_tol weights_type use_compression use_mundlak : pyval)
    : M unit :=
  raise_if (negb (is_str fml)) TypeError [Lit "fml must be a string"] ;;
  (* polars is imported at the top of the module, so the inner import
     cannot raise ImportError *)
  raise_if (negb (is_pandas data) && negb (is_polars data)) TypeError
    [Lit "data must be a pandas or polars dataframe"] ;;
  raise_if (negb (is_str vcov || is_dict vcov || is_none vcov)) TypeError
    [Lit "vcov must be a string, dictionary, or None"] ;;
  raise_if (negb (is_str fixef_rm)) TypeError
    [Lit "fixef_rm must be a string"] ;;
  raise_if (negb (is_float collin_tol)) TypeError
    [Lit "collin_tol must be a float"] ;;
  raise_if (negb (in_strs fixef_rm ["none"; "singleton"])) ValueError
    [Lit "fixef_rm must be either 'none' or 'singleton'"] ;;
  raise_if (le_lit collin_tol 0) ValueError
    [Lit "collin_tol must be greater than zero"] ;;
  raise_if (ge_lit collin_tol 1) ValueError
    [Lit "collin_tol must be less than one"] ;;
  raise_if (negb (is_str weights || is_none weights)) ValueError
    [Lit "weights must be a string or None but you provided weights = ";
     Val weights; Lit "."] ;;
  (if negb (is_none weights)
   then py_assert
          (match columns_of data with
           | Some cols => in_strs weights cols
           | None => false
           end) msg_weights_column
   else ret tt) ;;
  for_each [copy_data; store_data; lean] (fun arg =>
    raise_if (negb (is_bool arg)) TypeError
      [Lit "The function argument "; Val arg;
       Lit " must be of type bool."]) ;;
  raise_if (negb (is_float fixef_tol)) TypeError [Lit msg_fixef_tol_type] ;;
  raise_if (le_lit fixef_tol 0) ValueError [Lit msg_fixef_tol_low] ;;
  raise_if (ge_lit fixef_tol 1) ValueError [Lit msg_fixef_tol_high] ;;
  raise_if (negb (in_strs weights_type ["aweights"; "fweights"])) ValueError
    [Lit msg_weights_type_pre; Val weights_type; Lit msg_weights_type_post] ;;
  raise_if (negb (is_bool use_compression)) TypeError
    [Lit "The function argument `use_compression` must be of type bool."] ;;
  raise_if (truthy use_compression && negb (is_none weights))
    NotImplementedError [Lit msg_compression_weights] ;;
  raise_if (negb (is_bool use_mundlak)) TypeError
    [Lit "The function argument `use_mundlak` must be of type bool."].

Definition msg_i_ref1 (fn : string) : string :=
  "
            The 'i_ref1' function argument is deprecated with pyfixest version 0.18.0.
            Please use i-syntax instead, i.e. " ++ fn ++ "('Y~ i(f1, ref=1)', data = data)
            instead of the former " ++ fn ++ "('Y~ i(f1)', data = data, i_ref=1).
            ".

(** The tail shared by [feols] and [fepois]. *)
Definition return_fitted (fixest : FixestMulti) : M fitted :=
  if _is_multiple_estimation fixest then ret (RetMulti fixest)
  else f ← call EvFetch (fetch_model fixest 0 false) ; ret (RetFeols f).

Definition feols
    (fml data vcov weights ssc fixef_rm fixef_tol collin_tol drop_intercept
     i_ref1 copy_data store_data lean weights_type use_compression
     use_mundlak : pyval) : M fitted :=
  raise_if (negb (is_none i_ref1)) FeatureDeprecationError
    [Lit (msg_i_ref1 "feols")] ;;
  _estimation_input_checks fml data vcov weights ssc fixef_rm collin_tol
    copy_data store_data lean fixef_tol weights_type use_compression
    use_mundlak ;;
  fixest ← call EvNewFixestMulti
    (FixestMulti_new data copy_data store_data lean fixef_tol weights_type
       use_compression (Some use_mundlak)) ;
  fixest ← call (EvPrepare "feols")
    (_prepare_estimation fixest "feols" fml vcov weights ssc fixef_rm
       drop_intercept) ;
  fixest ← call EvEstimate
    (_estimate_all_models fixest vcov None None collin_tol) ;
  return_fitted fixest.

Definition fepois
    (fml data vcov ssc fixef_rm fixef_tol iwls_tol iwls_maxiter collin_tol
     drop_intercept i_ref1 copy_data store_data lean : pyval) : M fitted :=
  raise_if (negb (is_none i_ref1)) FeatureDeprecationError
    [Lit (msg_i_ref1 "fepois")] ;;
  let weights := PyNone in
  let weights_type := PyStr "aweights" in
  _estimation_input_checks fml data vcov weights ssc fixef_rm collin_tol
    copy_data store_data lean fixef_tol weights_type (PyBool false)
    (PyBool false) ;;
  fixest ← call EvNewFixestMulti
    (FixestMulti_new data copy_data store_data lean fixef_tol weights_type
       (PyBool false) None) ;
  fixest ← call (EvPrepare "fepois")
    (_prepare_estimation fixest "fepois" fml vcov weights ssc fixef_rm
       drop_intercept) ;
  raise_if (_is_iv fixest) NotImplementedError [Lit msg_iv_poisson] ;;
  fixest ← call EvEstimate
    (_estimate_all_models fixest vcov (Some iwls_tol) (Some iwls_maxiter)
       collin_tol) ;
  return_fitted fixest.

End Estimation.

(** ** Compressed regression *)

(** The polars expressions [_regression_compression] builds. *)
Inductive plexpr : Type :=
  | PlCount (col alias : string)        (* pl.count(col).alias(alias) *)
  | PlSum (col alias : string)          (* pl.sum(col).alias(alias) *)
  | PlSumSq (col alias : string)        (* pl.col(col).pow(2).sum().alias(alias) *)
  | PlDiv (num den alias : string).     (* (pl.col(num) / pl.col(den)).alias(alias) *)

Definition kwargs_t : Type := list (string * pyval).

(** polars, the methods of the fitted object and the two numpy variance
    formulas ([_vcov_iid], [_vcov_hetero]: floating-point matrix algebra,
    here the assignment [fit._vcov = _vcov_xxx(fit)] as a whole). *)
Class CompressedEngine `{Engine} : Type := {
  pl_DataFrame : pyval -> exn + DataFrame;
  pl_group_by_agg : DataFrame -> list string -> list plexpr -> exn + DataFrame;
  pl_with_columns : DataFrame -> list plexpr -> exn + DataFrame;
  (** [fit._depvar = d; fit._covars = c] *)
  set_depvar_covars : fitted -> string -> string -> fitted;
  assign_vcov_iid : fitted -> exn + fitted;
  assign_vcov_hetero : fitted -> exn + fitted;
  (** [fit.bootstrap(reps=, seed=, inplace=, fit_func=, **kwargs)] *)
  fit_bootstrap :
    fitted -> pyval -> pyval -> bool ->
    (pyval -> pyval -> pyval -> pyval -> pyval -> kwargs_t -> M fitted) ->
    kwargs_t -> exn + fitted;
  fit_get_inference : fitted -> exn + fitted
}.

Section Compressed.
Context `{CEng : CompressedEngine}.

(** Reading a local variable: [UnboundLocalError] while it has no value. *)
Definition read_local {A} (name : string) (v : option A) : M A :=
  match v with
  | Some x => ret x
  | None =>
      raise UnboundLocalError
        [Lit ("local variable '" ++ name ++ "' referenced before assignment")]
  end.

(** [l[i]] on a list. *)
Definition index {A} (l : list A) (i : nat) : M A :=
  match nth_error l i with
  | Some x => ret x
  | None => raise IndexError [Lit "list index out of range"]
  end.

Definition _regression_compression
    (depvars covars : list string) (data_long : DataFrame) : M DataFrame :=
  let aggregate_by := covars in
  d0 ← index depvars 0 ;
  let agg_expressions :=
    PlCount d0 "count" ::
    flat_map (fun var =>
      [PlSum var ("sum_" ++ var); PlSumSq var ("sum_" ++ var ++ "_sq")])
      depvars in
  df_compressed ← call (EvPolars "group_by.agg")
    (pl_group_by_agg data_long aggregate_by agg_expressions) ;
  let mean_expressions :=
    map (fun var => PlDiv ("sum_" ++ var) "count" ("mean_" ++ var)) depvars in
  call (EvPolars "with_columns")
    (pl_with_columns df_compressed mean_expressions).

Definition tol_1e_08 : pyval := PyFloat (FFin (1 # 100000000)).
Definition tol_1e_10 : pyval := PyFloat (FFin (1 # 10000000000)).

(** The nested function of [feols_compressed].  Its [weights],
    [weights_type] and [**kwargs] parameters are accepted and unused. *)
Definition _feols_compressed
    (fml data vcov weights weights_type : pyval) (kwargs : kwargs_t)
    : M fitted :=
  match fml with
  | PyStr f =>
      let fml2 := split_on "~" f in
      f0 ← index fml2 0 ;
      let depvar := [remove_char " " f0] in
      f1 ← index fml2 1 ;
      let rhs_fml := replace_char "|" "+" (remove_char " " f1) in
      let rhs_vars := split_on "+" rhs_fml in
      data_long ← call (EvPolars "DataFrame") (pl_DataFrame data) ;
      df_compressed ← _regression_compression depvar rhs_vars data_long ;
      d0 ← index depvar 0 ;
      let fml_compressed := "mean_" ++ d0 ++ " ~ " ++ rhs_fml in
      fit ← feols (PyStr fml_compressed) (PyPandas df_compressed) vcov
              (PyStr "count") ssc_default (PyStr "none") tol_1e_08
              tol_1e_10 (PyBool false) PyNone (PyBool true) (PyBool true)
              (PyBool false) (PyStr "fweights") (PyBool false)
              (PyBool false) ;
      d0 ← index depvar 0 ;
      ret (set_depvar_covars fit d0 rhs_fml)
  | _ => raise AttributeError [Lit "object has no attribute 'split'"]
  end.

Definition msg_bootstrap_fallback : string :=
  "Analytical standard errors are only available for 'iid' and 'hetero' vcov. Using a clustter bootstrap instead.".

Definition feols_compressed (fml data vcov bootstrap reps seed : pyval)
    : M fitted :=
  (* [kwargs] is a local of the function body: unbound until assigned *)
  let kwargs : option kwargs_t := None in
  fit ← _feols_compressed fml data vcov PyNone (PyStr "aweights")
          [("ssc", ssc_function)] ;
  b ← truth bootstrap ;
  fit ←
    (if b : bool then
       let kwargs := Some [("data", data); ("fml", fml)] in
       kw ← read_local "kwargs" kwargs ;
       call (EvBootstrap reps (PyInt 12))
         (fit_bootstrap fit reps (PyInt 12) true _feols_compressed kw)
     else if eq_str vcov "iid" then
       call (EvVcov "iid") (assign_vcov_iid fit)
     else if eq_str vcov "hetero" then
       call (EvVcov "hetero") (assign_vcov_hetero fit)
     else
       call (EvWarn msg_bootstrap_fallback) (inr tt) ;;
       kw ← read_local "kwargs" kwargs ;
       call (EvBootstrap reps seed)
         (fit_bootstrap fit reps seed true _feols_compressed kw)) ;
  fit ← call EvInference (fit_get_inference fit) ;
  ret fit.

(** Shorthand for [feols_compressed]. *)
Definition feols_c (fml data vcov bootstrap reps seed : pyval) : M fitted :=
  feols_compressed fml data vcov bootstrap reps seed.

End Compressed.

(** ** Randomization inference: what [tests/test_ritest.py] calls *)

(** numpy generator objects live in a store: [np.random.default_rng]
    allocates one, and [ritest] advances the one it is handed. *)
Abbreviation loc := positive (only parsing).

Class RitestEngine `{Engine} : Type := {
  rng_state : Type;
  (** the state [np.random.default_rng(seed)] starts from *)
  seed_state : Z -> rng_state;
  (** the attribute [fit._ritest_statistics], when it is set *)
  _ritest_statistics : fitted -> option (list pyfloat)
}.


(** The store of generator objects, and the result table of [ritest] by
    row label. *)
Abbreviation heap := (gmap loc rng_state) (only parsing).
Abbreviation ritest_table := (gmap string pyfloat) (only parsing).

Section RitestTests.
Context `{REng : RitestEngine}.







(** [res[label]] and [res.label]. *)
Definition row (res : ritest_table) (label : string) : M pyfloat :=
  match res !! label with
  | Some v => ret v
  | None => raise (OtherError "KeyError") [Lit label]
  end.







End RitestTests.

(** ** A resampling loop to run the test on *)


Section RitestSpec.
Context `{RM : RitestModel}.




End RitestSpec.

(** ** Requests *)

(** The keyword arguments of one call of [feols]. *)
Record feols_args : Type := mkFeolsArgs {
  fe_fml : pyval;
  fe_data : pyval;
  fe_vcov : pyval;
  fe_weights : pyval;
  fe_ssc : pyval;
  fe_fixef_rm : pyval;
  fe_fixef_tol : pyval;
  fe_collin_tol : pyval;
  fe_drop_intercept : pyval;
  fe_i_ref1 : pyval;
  fe_copy_data : pyval;
  fe_store_data : pyval;
  fe_lean : pyval;
  fe_weights_type : pyval;
  fe_use_compression : pyval;
  fe_use_mundlak : pyval
}.

(** The keyword arguments of one call of [fepois]. *)
Record fepois_args : Type := mkFepoisArgs {
  fp_fml : pyval;
  fp_data : pyval;
  fp_vcov : pyval;
  fp_ssc : pyval;
  fp_fixef_rm : pyval;
  fp_fixef_tol : pyval;
  fp_iwls_tol : pyval;
  fp_iwls_maxiter : pyval;
  fp_collin_tol : pyval;
  fp_drop_intercept : pyval;
  fp_i_ref1 : pyval;
  fp_copy_data : pyval;
  fp_store_data : pyval;
  fp_lean : pyval
}.

Definition with_collin_tol (a : feols_args) (v : pyval) : feols_args :=
  mkFeolsArgs (fe_fml a) (fe_data a) (fe_vcov a) (fe_weights a) (fe_ssc a)
    (fe_fixef_rm a) (fe_fixef_tol a) v (fe_drop_intercept a) (fe_i_ref1 a)
    (fe_copy_data a) (fe_store_data a) (fe_lean a) (fe_weights_type a)
    (fe_use_compression a) (fe_use_mundlak a).

Definition with_fixef_tol (a : feols_args) (v : pyval) : feols_args :=
  mkFeolsArgs (fe_fml a) (fe_data a) (fe_vcov a) (fe_weights a) (fe_ssc a)
    (fe_fixef_rm a) v (fe_collin_tol a) (fe_drop_intercept a) (fe_i_ref1 a)
    (fe_copy_data a) (fe_store_data a) (fe_lean a) (fe_weights_type a)
    (fe_use_compression a) (fe_use_mundlak a).

Definition with_weights (a : feols_args) (w uc : pyval) : feols_args :=
  mkFeolsArgs (fe_fml a) (fe_data a) (fe_vcov a) w (fe_ssc a)
    (fe_fixef_rm a) (fe_fixef_tol a) (fe_collin_tol a) (fe_drop_intercept a)
    (fe_i_ref1 a) (fe_copy_data a) (fe_store_data a) (fe_lean a)
    (fe_weights_type a) uc (fe_use_mundlak a).

Inductive request : Type :=
  | ReqFeols (a : feols_args)
  | ReqFepois (p : fepois_args).

Section Requests.
Context `{Eng : Engine}.

Definition call_feols (a : feols_args) : M fitted :=
  feols (fe_fml a) (fe_data a) (fe_vcov a) (fe_weights a) (fe_ssc a)
    (fe_fixef_rm a) (fe_fixef_tol a) (fe_collin_tol a) (fe_drop_intercept a)
    (fe_i_ref1 a) (fe_copy_data a) (fe_store_data a) (fe_lean a)
    (fe_weights_type a) (fe_use_compression a) (fe_use_mundlak a).

Definition call_fepois (p : fepois_args) : M fitted :=
  fepois (fp_fml p) (fp_data p) (fp_vcov p) (fp_ssc p) (fp_fixef_rm p)
    (fp_fixef_tol p) (fp_iwls_tol p) (fp_iwls_maxiter p) (fp_collin_tol p)
    (fp_drop_intercept p) (fp_i_ref1 p) (fp_copy_data p) (fp_store_data p)
    (fp_lean p).

Definition run_request (r : request) : M fitted :=
  match r with
  | ReqFeols a => call_feols a
  | ReqFepois p => call_fepois p
  end.

(** The input checks as [feols] runs them on [a], with [weights]
    replaced by [w] and [use_compression] by [uc]. *)
Definition feols_checks (a : feols_args) (w uc : pyval) : M unit :=
  _estimation_input_checks (fe_fml a) (fe_data a) (fe_vcov a) w
    (fe_ssc a) (fe_fixef_rm a) (fe_collin_tol a) (fe_copy_data a)
    (fe_store_data a) (fe_lean a) (fe_fixef_tol a) (fe_weights_type a)
    uc (fe_use_mundlak a).

(** The input checks as [fepois] runs them on [p]. *)
Definition fepois_checks (p : fepois_args) : M unit :=
  _estimation_input_checks (fp_fml p) (fp_data p) (fp_vcov p) PyNone
    (fp_ssc p) (fp_fixef_rm p) (fp_collin_tol p) (fp_copy_data p)
    (fp_store_data p) (fp_lean p) (fp_fixef_tol p) (PyStr "aweights")
    (PyBool false) (PyBool false).

(** The formula of a [fepois] request is an instrumental-variable one:
    the model prepared from it has [_is_iv] set. *)
Definition poisson_with_iv (p : fepois_args) : Prop :=
  exists fx0 fx,
    FixestMulti_new (fp_data p) (fp_copy_data p) (fp_store_data p)
      (fp_lean p) (fp_fixef_tol p) (PyStr "aweights") (PyBool false) None
      = inr fx0 /\
    _prepare_estimation fx0 "fepois" (fp_fml p) (fp_vcov p) PyNone
      (fp_ssc p) (fp_fixef_rm p) (fp_drop_intercept p) = inr fx /\
    _is_iv fx = true.

(** IV with Poisson, or compression with weights. *)
Definition unsupported_combination (r : request) : Prop :=
  match r with
  | ReqFeols a =>
      fe_use_compression a = PyBool true /\ fe_weights a <> PyNone
  | ReqFepois p => poisson_with_iv p
  end.

(** Nothing else is wrong with the request: no deprecated argument, and
    the input checks pass once the combination is taken away. *)
Definition otherwise_valid (r : request) : Prop :=
  match r with
  | ReqFeols a =>
      fe_i_ref1 a = PyNone /\
      feols_checks a (fe_weights a) (PyBool false) = ret tt
  | ReqFepois p =>
      fp_i_ref1 p = PyNone /\ fepois_checks p = ret tt
  end.

Definition not_supported_message (r : request) : string :=
  match r with
  | ReqFeols _ => msg_compression_weights
  | ReqFepois _ => msg_iv_poisson
  end.

(** A tolerance that is a number other than NaN and does not lie
    strictly between 0 and 1, or is not a float at all. *)
Definition tolerance_out_of_range (v : pyval) : Prop :=
  match v with
  | PyFloat (FFin q) => ~ (0 < q /\ q < 1)%Q
  | PyFloat FNaN => False
  | _ => True
  end.

(** A tolerance that does not lie strictly between 0 and 1. *)
Definition not_strictly_between_0_1 (v : pyval) : Prop :=
  ~ exists q, v = PyFloat (FFin q) /\ (0 < q /\ q < 1)%Q.

(** [weights] names a column that [data] does not have. *)
Definition names_absent_column (weights data : pyval) : Prop :=
  exists w cols,
    weights = PyStr w /\ columns_of data = Some cols /\ ~ In w cols.

(** The exception classes the [raise] statements of
    [_estimation_input_checks] use. *)
Definition raised_kind (c : exn_class) : Prop :=
  c = TypeError \/ c = ValueError \/ c = NotImplementedError.

(** *** The checks as a list of guards

    The first guard that holds decides the exception; this is the form
    the proofs work on, and [checks_normal_form] below relates it to
    [_estimation_input_checks]. *)
Fixpoint first_failure (l : list (bool * exn)) : M unit :=
  match l with
  | [] => ret tt
  | (b, e) :: rest => if b then ([], inl e) else first_failure rest
  end.

Definition not_bool_guard (arg : pyval) : bool * exn :=
  (negb (is_bool arg),
   mkExn TypeError
     [Lit "The function argument "; Val arg; Lit " must be of type bool."]).

Definition checks_list
    (fml data vcov weights ssc fixef_rm collin_tol copy_data store_data
     lean fixef_tol weights_type use_compression use_mundlak : pyval)
    : list (bool * exn) :=
  [ (negb (is_str fml), mkExn TypeError [Lit "fml must be a string"]);
    (negb (is_pandas data) && negb (is_polars data),
     mkExn TypeError [Lit "data must be a pandas or polars dataframe"]);
    (negb (is_str vcov || is_dict vcov || is_none vcov),
     mkExn TypeError [Lit "vcov must be a string, dictionary, or None"]);
    (negb (is_str fixef_rm), mkExn TypeError [Lit "fixef_rm must be a string"]);
    (negb (is_float collin_tol),
     mkExn TypeError [Lit "collin_tol must be a float"]);
    (negb (in_strs fixef_rm ["none"; "singleton"]),
     mkExn ValueError [Lit "fixef_rm must be either 'none' or 'singleton'"]);
    (le_lit collin_tol 0,
     mkExn ValueError [Lit "collin_tol must be greater than zero"]);
    (ge_lit collin_tol 1,
     mkExn ValueError [Lit "collin_tol must be less than one"]);
    (negb (is_str weights || is_none weights),
     mkExn ValueError
       [Lit "weights must be a string or None but you provided weights = ";
        Val weights; Lit "."]);
    (negb (is_none weights) && python_debug &&
       negb (match columns_of data with
             | Some cols => in_strs weights cols
             | None => false
             end),
     mkExn AssertionError [Lit msg_weights_column]);
    not_bool_guard copy_data;
    not_bool_guard store_data;
    not_bool_guard lean;
    (negb (is_float fixef_tol), mkExn TypeError [Lit msg_fixef_tol_type]);
    (le_lit fixef_tol 0, mkExn ValueError [Lit msg_fixef_tol_low]);
    (ge_lit fixef_tol 1, mkExn ValueError [Lit msg_fixef_tol_high]);
    (negb (in_strs weights_type ["aweights"; "fweights"]),
     mkExn ValueError
       [Lit msg_weights_type_pre; Val weights_type;
        Lit msg_weights_type_post]);
    (negb (is_bool use_compression),
     mkExn TypeError
       [Lit "The function argument `use_compression` must be of type bool."]);
    (truthy use_compression && negb (is_none weights),
     mkExn NotImplementedError [Lit msg_compression_weights]);
    (negb (is_bool use_mundlak),
     mkExn TypeError
       [Lit "The function argument `use_mundlak` must be of type bool."]) ].

End Requests.

(** ** A small engine to run the entry points on *)

Module Toy.

(** The prepared model remembers its formula; a formula in three parts
    ([y ~ x | fe | endo ~ instr]) is an instrumental-variable one.  The
    fitted model is the list of ritest statistics stored on it. *)
Definition engine (debug : bool) : Engine := {|
  python_debug := debug;
  FixestMulti := string;
  Feols := list pyfloat;
  ssc_default := PyDict [];
  ssc_function := PyObject "function";
  FixestMulti_new := fun _ _ _ _ _ _ _ _ => inr "";
  _prepare_estimation := fun _ _ fml _ _ _ _ _ =>
    match fml with
    | PyStr f => inr f
    | _ => inl (mkExn TypeError [Lit "formula"])
    end;
  _estimate_all_models := fun fx _ _ _ _ => inr fx;
  _is_iv := fun fx => (length (split_on "|" fx) =? 3)%nat;
  _is_multiple_estimation := fun _ => false;
  fetch_model := fun _ _ _ => inr []
|}.

Definition data : pyval :=
  PyPandas (mkDF ["Y"; "X1"; "f3"; "group_id"] []).

(** [feols(fml, data)] with every other argument at its default. *)
Definition feols_defaults (fml : string) : feols_args :=
  mkFeolsArgs (PyStr fml) data PyNone PyNone (PyDict []) (PyStr "none")
    (PyFloat (FFin (1 # 100000000))) (PyFloat (FFin (1 # 10000000000)))
    (PyBool false) PyNone (PyBool true) (PyBool true) (PyBool false)
    (PyStr "aweights") (PyBool false) (PyBool false).

(** [fepois(fml, data)] with every other argument at its default. *)
Definition fepois_defaults (fml : string) : fepois_args :=
  mkFepoisArgs (PyStr fml) data PyNone (PyDict []) (PyStr "none")
    (PyFloat (FFin (1 # 100000000))) (PyFloat (FFin (1 # 100000000)))
    (PyInt 25) (PyFloat (FFin (1 # 10000000000))) (PyBool false) PyNone
    (PyBool true) (PyBool true) (PyBool false).

End Toy.

Module ToyCompressed.

Definition alias_of (e : plexpr) : string :=
  match e with
  | PlCount _ a | PlSum _ a | PlSumSq _ a | PlDiv _ _ a => a
  end.

(** polars on column labels only: grouping keeps the keys and adds one
    column per aggregate; every method of the fitted object succeeds and
    leaves it as it is. *)
Definition engine (debug : bool) : @CompressedEngine (Toy.engine debug) := {|
  pl_DataFrame := fun data =>
    match data with
    | PyPandas df | PyPolars df => inr df
    | _ => inl (mkExn TypeError [Lit "DataFrame"])
    end;
  pl_group_by_agg := fun df by_ aggs => inr (mkDF (by_ ++ map alias_of aggs) []);
  pl_with_columns := fun df exprs =>
    inr (mkDF (columns df ++ map alias_of exprs) (cells df));
  set_depvar_covars := fun fit _ _ => fit;
  assign_vcov_iid := fun fit => inr fit;
  assign_vcov_hetero := fun fit => inr fit;
  fit_bootstrap := fun fit _ _ _ _ _ => inr fit;
  fit_get_inference := fun fit => inr fit
|}.

End ToyCompressed.

Module ToyRitest.

(** Generators are linear congruential on [Z]; the fitted model carries
    the stored statistics. *)
Definition engine (debug : bool) : @RitestEngine (Toy.engine debug) := {|
  rng_state := Z;
  seed_state := fun seed => seed;
  _ritest_statistics := fun fit : @fitted (Toy.engine debug) =>
    match fit with
    | RetFeols s => Some (s : list pyfloat)
    | RetMulti _ => None
    end
|}.




End ToyRitest.

(** ** What the claims are about *)

Section ClaimPredicates.
Context `{REng : RitestEngine}.

(** A configuration the input checks are there to refuse: [fml] is not a
    string, a tolerance is out of range, or one of the two options has an
    unknown value. *)
Definition invalid_configuration
    (fml fixef_rm collin_tol fixef_tol weights_type : pyval) : Prop :=
  is_str fml = false \/
  tolerance_out_of_range collin_tol \/
  tolerance_out_of_range fixef_tol \/
  in_strs fixef_rm ["none"; "singleton"] = false \/
  in_strs weights_type ["aweights"; "fweights"] = false.


End ClaimPredicates.

(** An event that is a call of [fit.bootstrap]. *)
Definition is_bootstrap (ev : event) : bool :=
  match ev with EvBootstrap _ _ => true | _ => false end.

(** ** Concrete requests *)

Module Inputs.

(** [feols("Y ~ X1", data, collin_tol=float("nan"))] *)
Definition nan_collin_tol : feols_args :=
  with_collin_tol (Toy.feols_defaults "Y ~ X1") (PyFloat FNaN).

(** [feols("Y ~ X1", data, fixef_tol=float("nan"))] *)
Definition nan_fixef_tol : feols_args :=
  with_fixef_tol (Toy.feols_defaults "Y ~ X1") (PyFloat FNaN).

(** [feols("Y ~ X1", data, weights="w")]: [data] has no column [w]. *)
Definition missing_weights : feols_args :=
  with_weights (Toy.feols_defaults "Y ~ X1") (PyStr "w") (PyBool false).

(** [feols("Y ~ X1", data, weights="X1", use_compression=True)] *)
Definition compressed_weighted : request :=
  ReqFeols (with_weights (Toy.feols_defaults "Y ~ X1") (PyStr "X1")
              (PyBool true)).

(** [fepois("Y ~ X1 | f3 | X2 ~ Z1", data)] *)
Definition poisson_iv : request :=
  ReqFepois (Toy.fepois_defaults "Y ~ X1 | f3 | X2 ~ Z1").

(** [vcov={"CRV1": "group_id"}] *)
Definition vcov_cluster : pyval := PyDict [("CRV1", "group_id")].

End Inputs.

(** ** What the entry points accept and in which order they call the engine *)

Section Accepted.
Context `{Eng : Engine}.

(** A tolerance the two comparisons let through: a float that is neither
    [<= 0] nor [>= 1]. *)
Definition tolerance_accepted (v : pyval) : Prop :=
  v = PyFloat FNaN \/ exists q, v = PyFloat (FFin q) /\ (0 < q /\ q < 1)%Q.

(** [weights] is [None], or a string that, when assertions are enabled,
    is a column of [data]. *)
Definition weights_accepted (weights data : pyval) : Prop :=
  weights = PyNone \/
  exists w, weights = PyStr w /\
    (python_debug = true ->
     exists cols, columns_of data = Some cols /\ In w cols).

(** The arguments [_estimation_input_checks] returns normally on.  The
    [ssc] argument does not occur: it is never looked at. *)
Definition accepted_arguments
    (fml data vcov weights fixef_rm collin_tol copy_data store_data lean
     fixef_tol weights_type use_compression use_mundlak : pyval) : Prop :=
  is_str fml = true /\
  (is_pandas data = true \/ is_polars data = true) /\
  (is_str vcov = true \/ is_dict vcov = true \/ vcov = PyNone) /\
  in_strs fixef_rm ["none"; "singleton"] = true /\
  tolerance_accepted collin_tol /\
  weights_accepted weights data /\
  is_bool copy_data = true /\ is_bool store_data = true /\
  is_bool lean = true /\
  tolerance_accepted fixef_tol /\
  in_strs weights_type ["aweights"; "fweights"] = true /\
  (exists b, use_compression = PyBool b /\ (b = true -> weights = PyNone)) /\
  is_bool use_mundlak = true.

Definition estimation_name (r : request) : string :=
  match r with ReqFeols _ => "feols" | ReqFepois _ => "fepois" end.

(** The engine calls of one request, in the order the entry points make
    them. *)
Definition pipeline (r : request) : list event :=
  [EvNewFixestMulti; EvPrepare (estimation_name r); EvEstimate; EvFetch].

End Accepted.

(** [e] is the exception of the first guard of [l] that holds. *)
Fixpoint raised_at (l : list (bool * exn)) (e : exn) : Prop :=
  match l with
  | [] => False
  | (b, e') :: rest => (b = true /\ e = e') \/ (b = false /\ raised_at rest e)
  end.

Section Kinds.
Context `{Eng : Engine}.

(** What an exception of the input checks tells about the arguments: the
    two kinds besides [TypeError] and [ValueError] each have one cause. *)
Definition exception_explained (e : exn)
    (data weights use_compression : pyval) : Prop :=
  match exn_cls e with
  | TypeError | ValueError => True
  | AssertionError =>
      python_debug = true /\
      exists w, weights = PyStr w /\
        forall cols, columns_of data = Some cols -> ~ In w cols
  | NotImplementedError =>
      use_compression = PyBool true /\ weights <> PyNone
  | _ => False
  end.

End Kinds.

(** The exception classes an entry point can raise before it has called
    the engine: [fepois] fixes [weights] and [use_compression], which
    leaves it three. *)
Definition raised_before_engine (r : request) (c : exn_class) : Prop :=
  match r with
  | ReqFeols _ =>
      c = FeatureDeprecationError \/ c = TypeError \/ c = ValueError \/
      c = AssertionError \/ c = NotImplementedError
  | ReqFepois _ =>
      c = FeatureDeprecationError \/ c = TypeError \/ c = ValueError
  end.

(** ** Compressed regression: branches and the formula *)

(** The events of the compressed fit itself: polars and the engine calls
    of [feols]. *)
Definition is_fit_event (ev : event) : bool :=
  match ev with
  | EvNewFixestMulti | EvPrepare _ | EvEstimate | EvFetch | EvPolars _ => true
  | _ => false
  end.

(** The step that gives the fit its variance. *)
Definition variance_step (reps : pyval) (ev : event) : Prop :=
  ev = EvBootstrap reps (PyInt 12) \/ ev = EvVcov "iid" \/ ev = EvVcov "hetero".

(** [c] does not occur in [s]. *)
Fixpoint lacks (c : ascii) (s : string) : Prop :=
  match s with
  | EmptyString => True
  | String a rest => a <> c /\ lacks c rest
  end.

(** The columns an expression reads. *)
Definition expr_inputs (e : plexpr) : list string :=
  match e with
  | PlCount c _ | PlSum c _ | PlSumSq c _ => [c]
  | PlDiv n d _ => [n; d]
  end.

(** ** [did/visualize.py] *)

Module Panel.

(** Which part of a unit's line one [ax.plot] call draws. *)
Inductive segment : Type :=
  | Whole
  | Since (treatment_start : pyval).

(** The calls on matplotlib, in the order they are made. *)
Inductive plot_event : Type :=
  | Subplots (figsize : option (Z * Z)) (dpi : option Z)
  | PlotLine (unit_id : pyval) (part : segment) (color : string)
      (linewidth : Q) (label : option pyval)
  | SetXLabel (s : pyval)
  | SetYLabel (s : pyval)
  | SetTitle (s : pyval) (bold : bool)
  | Grid
  | SetXLim (lim : Q * Q)
  | SetYLim (lim : Q * Q)
  | Legend
  | Matshow
  | Colorbar
  | SetXTicks
  | SetYTicks.

Definition P (A : Type) : Type := (list plot_event * (exn + A))%type.

Definition pret {A} (a : A) : P A := ([], inr a).
Definition pbind {A B} (m : P A) (k : A -> P B) : P B :=
  match m with
  | (t, inl e) => (t, inl e)
  | (t, inr a) => let '(t', r) := k a in ((t ++ t')%list, r)
  end.
#[global] Instance P_ret : MRet P := @pret.
#[global] Instance P_bind : MBind P := fun A B k m => pbind m k.

(** A matplotlib call: recorded, no result of interest. *)
Definition draw (ev : plot_event) : P unit := ([ev], inr tt).
(** A pandas call: it returns or raises, and draws nothing. *)
Definition pandas {A} (r : exn + A) : P A := ([], r).
Definition when (b : bool) (m : P unit) : P unit :=
  if b then m else pret tt.

(** pandas and [plt.subplots]: what [panelview] calls on its data. *)
Class Pandas : Type := {
  frame : Type;
  pivoted : Type;
  axes : Type;
  figure : Type;
  (** [data[data[unit].isin(units)]] *)
  filter_isin : frame -> string -> list pyval -> exn + frame;
  (** [data.pivot(index=, columns=, values=)] *)
  pivot : frame -> string -> string -> pyval -> exn + pivoted;
  (** [pivoted.sample(n)] *)
  sample : pivoted -> pyval -> exn + pivoted;
  (** [data.groupby(unit).apply(lambda x: x[x[treat] == True][time].min(),
      include_groups=False).reset_index(name='treatment_start')] *)
  treatment_starts : frame -> string -> string -> string -> exn + frame;
  (** [data.merge(other, on=unit, how='left')] *)
  merge_left : frame -> frame -> string -> exn + frame;
  (** [data.groupby(keys, dropna=False)[outcome].mean().reset_index()] *)
  group_mean : frame -> list string -> pyval -> exn + frame;
  (** [data_agg[treat] = data_agg.apply(lambda row: row['year'] >=
      row['treatment_start'] if pd.notna(row['treatment_start']) else
      False, axis=1)] *)
  mark_treated : frame -> string -> exn + frame;
  (** [data.rename(columns={old: new})] *)
  rename_column : frame -> string -> string -> exn + frame;
  (** [pivoted.index] *)
  pivot_index : pivoted -> list pyval;
  (** [data[(data[unit] == unit_id) & (data[treat] == True)][time]] *)
  treatment_times : frame -> string -> pyval -> string -> string ->
                    exn + list pyval;
  (** [series.min()] *)
  series_min : list pyval -> pyval;
  (** [pivoted.drop_duplicates()] *)
  drop_duplicates : pivoted -> exn + pivoted;
  (** [pivoted.loc[pivoted.sum(axis=1).sort_values().index]] *)
  sort_by_row_sum : pivoted -> exn + pivoted;
  (** the figure and the axes [plt.subplots] creates *)
  new_figure : option (Z * Z) -> option Z -> figure * axes
}.

(** The keyword arguments of [panelview]. *)
Record args `{Pandas} : Type := mkArgs {
  data : frame;
  unit_ : string;
  time : string;
  treat : string;
  type : pyval;
  outcome : pyval;
  collapse_to_cohort : pyval;
  subsamp : pyval;
  sort_by_timing : pyval;
  xlab : pyval;
  ylab : pyval;
  figsize : option (Z * Z);
  noticks : pyval;
  title : pyval;
  legend : pyval;
  ax : option axes;
  xlim : option (Q * Q);
  ylim : option (Q * Q);
  units_to_plot : list pyval
}.

Section Panelview.
Context `{Pd : Pandas}.

(** [x if x else y]. *)
Definition or_else (x y : pyval) : pyval := if truthy x then x else y.

(** The body of [for unit_id in data_pivot.index]. *)
Definition plot_unit (a : args) (data : frame) (unit_id : pyval) : P unit :=
  treatment_times ← pandas (treatment_times data (unit_ a) unit_id
                               (treat a) (time a)) ;
  match treatment_times with
  | [] => draw (PlotLine unit_id Whole "#999999" (1 # 2) None)
  | _ =>
      let treatment_start := series_min treatment_times in
      draw (PlotLine unit_id Whole "#FF8343" (1 # 2)
              (if truthy (legend a) then Some unit_id else None)) ;;
      draw (PlotLine unit_id (Since treatment_start) "#ff0000" (9 # 10) None)
  end.

Fixpoint plot_units (a : args) (data : frame) (ids : list pyval) : P unit :=
  match ids with
  | [] => pret tt
  | unit_id :: rest => plot_unit a data unit_id ;; plot_units a data rest
  end.

(** Reading the local [f], bound only by [f, ax = plt.subplots()]. *)
Definition read_f (f : option figure) : P figure :=
  match f with
  | Some fig => pret fig
  | None =>
      ([], inl (mkExn UnboundLocalError
                  [Lit "local variable 'f' referenced before assignment"]))
  end.

Definition outcome_plot (a : args) : P axes :=
  data ← (match units_to_plot a with
          | [] => pret (data a)
          | units => pandas (filter_isin (data a) (unit_ a) units)
          end) ;
  data_pivot ← pandas (pivot data (unit_ a) (time a) (outcome a)) ;
  data_pivot ← (if truthy (subsamp a)
                then pandas (sample data_pivot (subsamp a))
                else pret data_pivot) ;
  '(data, data_pivot) ←
    (if truthy (collapse_to_cohort a) then
       starts ← pandas (treatment_starts data (unit_ a) (treat a) (time a)) ;
       data ← pandas (merge_left data starts (unit_ a)) ;
       data_agg ← pandas (group_mean data ["treatment_start"; "year"]
                            (outcome a)) ;
       data_agg ← pandas (mark_treated data_agg (treat a)) ;
       data_agg ← pandas (rename_column data_agg "treatment_start" (unit_ a)) ;
       data_pivot ← pandas (pivot data_agg (unit_ a) (time a) (outcome a)) ;
       pret (data_agg, data_pivot)
     else pret (data, data_pivot)) ;
  ax ← (match ax a with
        | Some ax => pret ax
        | None =>
            draw (Subplots (figsize a) (Some 300%Z)) ;;
            pret (snd (new_figure (figsize a) (Some 300%Z)))
        end) ;
  plot_units a data (pivot_index data_pivot) ;;
  draw (SetXLabel (or_else (xlab a) (PyStr (time a)))) ;;
  draw (SetYLabel (or_else (ylab a) (outcome a))) ;;
  draw (SetTitle
          (or_else (title a) (PyStr "Outcome over Time with Treatment Effect"))
          true) ;;
  draw Grid ;;
  (match xlim a with Some l => draw (SetXLim l) | None => pret tt end) ;;
  (match ylim a with Some l => draw (SetYLim l) | None => pret tt end) ;;
  when (truthy (legend a)) (draw Legend) ;;
  pret ax.

Definition treatment_quilt (a : args) : P axes :=
  treatment_quilt ← pandas (pivot (data a) (unit_ a) (time a)
                              (PyStr (treat a))) ;
  treatment_quilt ← (if truthy (subsamp a)
                     then pandas (sample treatment_quilt (subsamp a))
                     else pret treatment_quilt) ;
  treatment_quilt ← (if truthy (collapse_to_cohort a)
                     then pandas (drop_duplicates treatment_quilt)
                     else pret treatment_quilt) ;
  treatment_quilt ← (if truthy (sort_by_timing a)
                     then pandas (sort_by_row_sum treatment_quilt)
                     else pret treatment_quilt) ;
  '(f, ax) ← (match ax a with
              | Some ax => pret (None, ax)
              | None =>
                  draw (Subplots None None) ;;
                  let '(f, ax) := new_figure None None in pret (Some f, ax)
              end) ;
  draw Matshow ;;
  (if truthy (legend a) then f ← read_f f ; draw Colorbar else pret tt) ;;
  when (truthy (xlab a)) (draw (SetXLabel (xlab a))) ;;
  when (truthy (ylab a)) (draw (SetYLabel (ylab a))) ;;
  when (truthy (noticks a)) (draw SetXTicks ;; draw SetYTicks) ;;
  when (truthy (title a)) (draw (SetTitle (title a) false)) ;;
  pret ax.

Definition panelview (a : args) : P axes :=
  if eq_str (type a) "outcome" && truthy (outcome a)
  then outcome_plot a
  else treatment_quilt a.

Definition is_plot_line (ev : plot_event) : bool :=
  match ev with PlotLine _ _ _ _ _ => true | _ => false end.

(** The lines the loop draws for the units [ids], given the treatment
    times of each: one grey line for a unit never treated, an orange and
    a red one for a treated unit. *)
Definition lines_of (times : pyval -> list pyval) (ids : list pyval) : nat :=
  length ids + length (filter (fun u => times u <> []) ids).

End Panelview.

End Panel.

(** The column an expression creates. *)
Definition expr_alias (e : plexpr) : string :=
  match e with
  | PlCount _ a | PlSum _ a | PlSumSq _ a | PlDiv _ _ a => a
  end.

(** ** A small panel to run [panelview] on *)

Module ToyPanel.
Import Panel.

(** A frame lists, for each unit, the times at which it is treated. *)
Definition times_in (d : list (Z * list pyval)) (u : pyval) : list pyval :=
  match u with
  | PyInt z =>
      match find (fun row => (fst row =? z)%Z) d with
      | Some row => snd row
      | None => []
      end
  | _ => []
  end.

Definition engine : Pandas := {|
  frame := list (Z * list pyval);
  pivoted := list pyval;
  axes := nat;
  figure := nat;
  filter_isin := fun d _ _ => inr d;
  pivot := fun d _ _ _ => inr (map (fun row => PyInt (fst row)) d);
  sample := fun p _ => inr p;
  treatment_starts := fun d _ _ _ => inr d;
  merge_left := fun d _ _ => inr d;
  group_mean := fun d _ _ => inr d;
  mark_treated := fun d _ => inr d;
  rename_column := fun d _ _ => inr d;
  pivot_index := fun p => p;
  treatment_times := fun d _ u _ _ => inr (times_in d u);
  series_min := fun l => match l with x :: _ => x | [] => PyNone end;
  drop_duplicates := fun p => inr p;
  sort_by_row_sum := fun p => inr p;
  new_figure := fun _ _ => (0, 1)
|}.

(** Unit 1 is never treated, unit 2 is treated from 2003 on. *)
Definition panel : list (Z * list pyval) :=
  [(1%Z, []); (2%Z, [PyInt 2003; PyInt 2004])].

(** [panelview(data, "unit", "year", "treat", type=type, outcome=outcome,
    legend=legend, ax=ax)] *)
Definition call (type outcome legend : pyval) (ax : option nat)
    : @args engine :=
  @mkArgs engine panel "unit" "year" "treat" type outcome (PyBool false)
    PyNone (PyBool false) PyNone PyNone (Some (11%Z, 3%Z)) (PyBool false)
    PyNone legend ax None None [].

End ToyPanel.

Module MoreInputs.

(** [feols("Y ~ X1", data, collin_tol=2.0)] *)
Definition collin_tol_two : feols_args :=
  with_collin_tol (Toy.feols_defaults "Y ~ X1") (PyFloat (FFin 2)).

(** [fepois("Y ~ X1", data, fixef_rm="perfect")] *)
Definition fixef_rm_unknown : fepois_args :=
  mkFepoisArgs (PyStr "Y ~ X1") Toy.data PyNone (PyDict []) (PyStr "perfect")
    (PyFloat (FFin (1 # 100000000))) (PyFloat (FFin (1 # 100000000)))
    (PyInt 25) (PyFloat (FFin (1 # 10000000000))) (PyBool false) PyNone
    (PyBool true) (PyBool true) (PyBool false).

End MoreInputs.
(** * Properties *)

Section MonadLaws.

Lemma bind_ret_l {A B} (a : A) (k : A -> M B) : (x ← ret a ; k x) = k a.
Proof. unfold mbind, M_bind, bind, ret. destruct (k a); reflexivity. Qed.

Lemma bind_assoc {A B C} (m : M A) (f : A -> M B) (g : B -> M C) :
  (y ← (x ← m ; f x) ; g y) = (x ← m ; y ← f x ; g y).
Proof.
  unfold mbind, M_bind, bind. destruct m as [t [e|a]]; [reflexivity|].
  destruct (f a) as [t1 [e|b]]; [reflexivity|].
  destruct (g b) as [t2 r]. by rewrite app_assoc.
Qed.

Lemma raise_if_seq {B} (b : bool) c msg (k : M B) :
  (raise_if b c msg ;; k) = if b then ([], inl (mkExn c msg)) else k.
Proof.
  destruct b; [reflexivity|]. apply (bind_ret_l tt (fun _ => k)).
Qed.

Lemma ret_seq {B} (k : M B) : (ret tt ;; k) = k.
Proof. apply (bind_ret_l tt (fun _ => k)). Qed.

Lemma call_bind {A B} ev (a : A) (k : A -> M B) :
  (x ← call ev (inr a) ; k x) = (ev :: trace (k a), outcome (k a)).
Proof. unfold mbind, M_bind, bind, call, trace, outcome. by destruct (k a). Qed.

End MonadLaws.

Section Guards.

Lemma first_failure_trace l : trace (first_failure l) = [].
Proof. induction l as [|[[] e] l IH]; auto. Qed.

Lemma first_failure_raises l e :
  outcome (first_failure l) = inl e -> In (true, e) l.
Proof.
  induction l as [|[b e'] l IH]; simpl; [discriminate|].
  destruct b; simpl; intros H.
  - left. congruence.
  - right. auto.
Qed.

Lemma first_failure_some l b e :
  In (b, e) l -> b = true -> exists e', first_failure l = ([], inl e').
Proof.
  induction l as [|[b' e'] l IH]; simpl; [tauto|].
  intros [Heq|Hin] Hb; destruct b'; eauto. congruence.
Qed.

Lemma first_failure_cases l :
  first_failure l = ret tt \/ exists e, first_failure l = ([], inl e).
Proof.
  induction l as [|[[] e] l IH]; simpl; eauto.
Qed.

End Guards.

Section Checks.
Context `{Eng : Engine}.

Ltac guard_steps :=
  repeat (rewrite raise_if_seq;
          match goal with
          | |- (if ?b then _ else _) = _ => destruct b; [reflexivity|]
          end).

Lemma checks_normal_form fml data vcov weights ssc fixef_rm collin_tol
    copy_data store_data lean fixef_tol weights_type use_compression
    use_mundlak :
  _estimation_input_checks fml data vcov weights ssc fixef_rm collin_tol
    copy_data store_data lean fixef_tol weights_type use_compression
    use_mundlak
  = first_failure
      (checks_list fml data vcov weights ssc fixef_rm collin_tol copy_data
         store_data lean fixef_tol weights_type use_compression use_mundlak).
Proof.
  unfold _estimation_input_checks, checks_list, not_bool_guard, py_assert.
  cbn [for_each first_failure]. rewrite !bind_assoc. guard_steps.
  destruct (is_none weights); [|destruct python_debug]; cbn [negb andb];
    rewrite ?ret_seq; guard_steps; rewrite ?ret_seq; guard_steps;
    unfold raise_if; destruct (negb (is_bool use_mundlak)); reflexivity.
Qed.

Lemma checks_trace_nil fml data vcov weights ssc fixef_rm collin_tol
    copy_data store_data lean fixef_tol weights_type use_compression
    use_mundlak :
  trace (_estimation_input_checks fml data vcov weights ssc fixef_rm
           collin_tol copy_data store_data lean fixef_tol weights_type
           use_compression use_mundlak) = [].
Proof. rewrite checks_normal_form. apply first_failure_trace. Qed.

Lemma checks_cases (m : M unit) l :
  m = first_failure l -> m = ret tt \/ exists e, m = ([], inl e).
Proof. intros ->. apply first_failure_cases. Qed.

(** [feols] stops at the first failing check, before the engine is
    called. *)
Lemma feols_stops_at_check (a : feols_args) e :
  feols_checks a (fe_weights a) (fe_use_compression a) = ([], inl e) ->
  exists e', call_feols a = ([], inl e').
Proof.
  unfold call_feols, feols, feols_checks. intros H.
  rewrite raise_if_seq. destruct (negb (is_none (fe_i_ref1 a))); [eauto|].
  rewrite H. eauto.
Qed.

Lemma feols_raises_check (a : feols_args) e :
  fe_i_ref1 a = PyNone ->
  feols_checks a (fe_weights a) (fe_use_compression a) = ([], inl e) ->
  call_feols a = ([], inl e).
Proof.
  unfold call_feols, feols, feols_checks. intros Hi H.
  rewrite raise_if_seq, Hi. cbn. rewrite H. reflexivity.
Qed.

Lemma fepois_stops_at_check (p : fepois_args) e :
  fepois_checks p = ([], inl e) ->
  exists e', call_fepois p = ([], inl e').
Proof.
  unfold call_fepois, fepois, fepois_checks. intros H.
  rewrite raise_if_seq. destruct (negb (is_none (fp_i_ref1 p))); [eauto|].
  cbn zeta. rewrite H. eauto.
Qed.

Lemma in_strs_In (w : string) (l : list string) :
  in_strs (PyStr w) l = true <-> In w l.
Proof.
  unfold in_strs. rewrite existsb_exists. split.
  - intros (x & Hx & Heq). cbn in Heq. apply String.eqb_eq in Heq. by subst.
  - intros H. exists w. split; [done|]. cbn. apply String.eqb_refl.
Qed.

Lemma tolerance_guard (v : pyval) :
  tolerance_out_of_range v ->
  negb (is_float v) = true \/ le_lit v 0 = true \/ ge_lit v 1 = true.
Proof.
  destruct v as [| | |f| | | | |]; try (left; reflexivity).
  destruct f as [q| | |]; cbn; intros H; try tauto.
  right. unfold le_lit, ge_lit, fge; cbn.
  destruct (Qlt_le_dec 0 q) as [H0|H0].
  - destruct (Qlt_le_dec q 1) as [H1|H1]; [tauto|].
    right. by apply Qle_bool_iff.
  - left. by apply Qle_bool_iff.
Qed.

Ltac guard_in := cbn; repeat (first [left; reflexivity | right]).

(** A refused configuration trips one of the guards, whatever the other
    arguments are. *)
Lemma invalid_configuration_guard fml data vcov weights ssc fixef_rm
    collin_tol copy_data store_data lean fixef_tol weights_type
    use_compression use_mundlak :
  invalid_configuration fml fixef_rm collin_tol fixef_tol weights_type ->
  exists e,
    _estimation_input_checks fml data vcov weights ssc fixef_rm collin_tol
      copy_data store_data lean fixef_tol weights_type use_compression
      use_mundlak = ([], inl e).
Proof.
  rewrite checks_normal_form.
  intros [Hi|[Hi|[Hi|[Hi|Hi]]]].
  - eapply first_failure_some with (b := negb (is_str fml));
      [left; reflexivity | by rewrite Hi].
  - apply tolerance_guard in Hi as [Hi|[Hi|Hi]];
      (eapply first_failure_some; [|exact Hi]); unfold checks_list; guard_in.
  - apply tolerance_guard in Hi as [Hi|[Hi|Hi]];
      (eapply first_failure_some; [|exact Hi]); unfold checks_list; guard_in.
  - eapply first_failure_some
      with (b := negb (in_strs fixef_rm ["none"; "singleton"]));
      [unfold checks_list; guard_in | by rewrite Hi].
  - eapply first_failure_some
      with (b := negb (in_strs weights_type ["aweights"; "fweights"]));
      [unfold checks_list; guard_in | by rewrite Hi].
Qed.

(** Every refused configuration makes [feols] raise with an empty trace:
    no [FixestMulti] is constructed and no estimation starts. *)
Lemma feols_refuses_invalid_configuration (a : feols_args) :
  invalid_configuration (fe_fml a) (fe_fixef_rm a) (fe_collin_tol a)
    (fe_fixef_tol a) (fe_weights_type a) ->
  exists e, call_feols a = ([], inl e).
Proof.
  intros Hi.
  destruct (invalid_configuration_guard _ (fe_data a) (fe_vcov a)
              (fe_weights a) (fe_ssc a) _ _ (fe_copy_data a)
              (fe_store_data a) (fe_lean a) _ _ (fe_use_compression a)
              (fe_use_mundlak a) Hi) as [e He].
  by eapply feols_stops_at_check.
Qed.

(** The same for [fepois], whose [weights_type] is fixed. *)
Lemma fepois_refuses_invalid_configuration (p : fepois_args) :
  invalid_configuration (fp_fml p) (fp_fixef_rm p) (fp_collin_tol p)
    (fp_fixef_tol p) (PyStr "aweights") ->
  exists e, call_fepois p = ([], inl e).
Proof.
  intros Hi.
  destruct (invalid_configuration_guard _ (fp_data p) (fp_vcov p) PyNone
              (fp_ssc p) _ _ (fp_copy_data p) (fp_store_data p) (fp_lean p)
              _ _ (PyBool false) (PyBool false) Hi) as [e He].
  by eapply fepois_stops_at_check.
Qed.

Ltac pass_guards H :=
  cbn [first_failure checks_list not_bool_guard] in H;
  repeat match type of H with
         | (if ?b then _ else _) = _ =>
             let E := fresh "G" in destruct b eqn:E; [discriminate H|]
         end.

Lemma compression_with_weights_raises (a : feols_args) :
  fe_use_compression a = PyBool true -> fe_weights a <> PyNone ->
  exists e, feols_checks a (fe_weights a) (fe_use_compression a) = ([], inl e).
Proof.
  intros Hc Hw. unfold feols_checks. rewrite checks_normal_form, Hc.
  eapply first_failure_some
    with (b := truthy (PyBool true) && negb (is_none (fe_weights a))).
  - unfold checks_list. guard_in.
  - destruct (fe_weights a); done.
Qed.

Lemma compression_gate (a : feols_args) :
  fe_use_compression a = PyBool true -> fe_weights a <> PyNone ->
  feols_checks a (fe_weights a) (PyBool false) = ret tt ->
  feols_checks a (fe_weights a) (fe_use_compression a)
  = ([], inl (mkExn NotImplementedError [Lit msg_compression_weights])).
Proof.
  intros Hc Hw. unfold feols_checks. rewrite !checks_normal_form, Hc.
  intros H. pass_guards H.
  cbn [first_failure checks_list not_bool_guard].
  repeat match goal with G : _ = false |- _ => rewrite G; clear G end.
  cbn. destruct (fe_weights a); done.
Qed.

Lemma fepois_iv_gate (p : fepois_args) :
  poisson_with_iv p -> fp_i_ref1 p = PyNone -> fepois_checks p = ret tt ->
  call_fepois p
  = ([EvNewFixestMulti; EvPrepare "fepois"],
     inl (mkExn NotImplementedError [Lit msg_iv_poisson])).
Proof.
  intros (fx0 & fx & Hnew & Hprep & Hiv) Hi Hc.
  unfold call_fepois, fepois. unfold fepois_checks in Hc.
  rewrite raise_if_seq, Hi. cbn [is_none negb]. cbn zeta.
  rewrite Hc, ret_seq, Hnew, call_bind, Hprep, call_bind.
  rewrite raise_if_seq, Hiv. reflexivity.
Qed.

Lemma fepois_iv_never_estimates (p : fepois_args) :
  poisson_with_iv p ->
  (exists e, outcome (call_fepois p) = inl e) /\
  ~ In EvEstimate (trace (call_fepois p)).
Proof.
  intros Hiv.
  destruct (is_none (fp_i_ref1 p)) eqn:Hi.
  - destruct (checks_cases (fepois_checks p) _
                (checks_normal_form _ _ _ _ _ _ _ _ _ _ _ _ _ _)) as [Hc|[e Hc]].
    + destruct (fp_i_ref1 p) eqn:Hr; try discriminate.
      rewrite (fepois_iv_gate p Hiv Hr Hc). cbn. split; [eauto|].
      intros [H|[H|[]]]; discriminate.
    + destruct (fepois_stops_at_check p e Hc) as [e' ->]. cbn. eauto.
  - unfold call_fepois, fepois. rewrite raise_if_seq, Hi. cbn. eauto.
Qed.

(** Claim C7.  A request that combines compression with weights
    ([feols]) or an instrumental-variable formula with Poisson regression
    ([fepois]) never completes and never reaches
    [_estimate_all_models]; when nothing else is wrong with the request
    the exception is [NotImplementedError] with the not-supported
    message, raised by [feols] before any engine call and by [fepois]
    right after the formula has been prepared. *)
Theorem unsupported_combination_rejected (r : request) :
  unsupported_combination r ->
  (exists e, outcome (run_request r) = inl e) /\
  ~ In EvEstimate (trace (run_request r)) /\
  (otherwise_valid r ->
   outcome (run_request r)
   = inl (mkExn NotImplementedError [Lit (not_supported_message r)]) /\
   trace (run_request r)
   = match r with
     | ReqFeols _ => []
     | ReqFepois _ => [EvNewFixestMulti; EvPrepare "fepois"]
     end).
Proof.
  destruct r as [a|p]; cbn [unsupported_combination otherwise_valid
                            run_request not_supported_message].
  - intros [Hc Hw].
    destruct (compression_with_weights_raises a Hc Hw) as [e He].
    destruct (feols_stops_at_check a e He) as [e' Hf].
    split; [rewrite Hf; cbn; eauto|].
    split; [rewrite Hf; cbn; tauto|].
    intros [Hi Hv].
    by rewrite (feols_raises_check a _ Hi (compression_gate a Hc Hw Hv)).
  - intros Hiv. destruct (fepois_iv_never_estimates p Hiv) as [He Ht].
    split; [done|]. split; [done|].
    intros [Hi Hc]. by rewrite (fepois_iv_gate p Hiv Hi Hc).
Qed.

(** With assertions enabled: when [weights] names a column that [data]
    does not have and the rest of the request is valid, [feols] fails
    with [AssertionError("weights must be a column in data")] before any
    model object is constructed. *)
Theorem missing_weights_column_is_assertion (a : feols_args) :
  names_absent_column (fe_weights a) (fe_data a) ->
  python_debug = true ->
  fe_i_ref1 a = PyNone ->
  feols_checks a PyNone (fe_use_compression a) = ret tt ->
  call_feols a = ([], inl (mkExn AssertionError [Lit msg_weights_column])).
Proof.
  intros (w & cols & Hw & Hcols & Hnot) Hdbg Hi Hv.
  apply feols_raises_check; [done|].
  unfold feols_checks in *. rewrite checks_normal_form in *. rewrite Hw.
  pass_guards Hv.
  cbn [first_failure checks_list not_bool_guard].
  repeat match goal with G : _ = false |- _ => rewrite G; clear G end.
  rewrite Hdbg, Hcols. cbn.
  destruct (in_strs (PyStr w) cols) eqn:Hin; [|reflexivity].
  apply in_strs_In in Hin. contradiction.
Qed.

Lemma assertion_only_for_missing_column fml data vcov weights ssc fixef_rm
    collin_tol copy_data store_data lean fixef_tol weights_type
    use_compression use_mundlak e :
  outcome (_estimation_input_checks fml data vcov weights ssc fixef_rm
             collin_tol copy_data store_data lean fixef_tol weights_type
             use_compression use_mundlak) = inl e ->
  (exn_cls e = AssertionError <-> exn_msg e = [Lit msg_weights_column]) /\
  (exn_cls e = AssertionError \/ raised_kind (exn_cls e)).
Proof.
  rewrite checks_normal_form. intros H. apply first_failure_raises in H.
  unfold checks_list, not_bool_guard, raised_kind in *. cbn in H.
  repeat destruct H as [H|H]; try contradiction;
    inversion H; subst; cbn; (split; [split; intros; discriminate || reflexivity | tauto]).
Qed.

End Checks.

Section Traces.

Lemma trace_bind_Forall {A B} (P : event -> Prop) (m : M A) (k : A -> M B) :
  Forall P (trace m) -> (forall a, Forall P (trace (k a))) ->
  Forall P (trace (x ← m ; k x)).
Proof.
  unfold mbind, M_bind, bind, trace. destruct m as [t [e|a]]; cbn; [done|].
  intros Ht Hk. specialize (Hk a). destruct (k a) as [t' r]; cbn in *.
  by apply Forall_app.
Qed.


Lemma trace_raise_if P b c msg : Forall P (trace (raise_if b c msg)).
Proof. destruct b; constructor. Qed.

Lemma trace_call {A} (P : event -> Prop) ev (r : exn + A) :
  P ev -> Forall P (trace (call ev r)).
Proof. intros H. cbn. by constructor. Qed.

End Traces.

Section CompressedProps.
Context `{CEng : CompressedEngine}.

Lemma trace_index {A} P (l : list A) i : Forall P (trace (index l i)).
Proof. unfold index. destruct (nth_error l i); constructor. Qed.

Ltac trace_steps :=
  repeat match goal with
    | |- Forall _ (trace (raise_if _ _ _)) => apply trace_raise_if
    | |- Forall _ (trace (call _ _)) => apply trace_call; try reflexivity
    | |- Forall _ (trace (mbind _ _)) => apply trace_bind_Forall; [|intros]
    | |- Forall _ (trace (ret _)) => constructor
    | |- Forall _ (trace (index _ _)) => apply trace_index
    end.

Lemma feols_no_bootstrap fml data vcov weights ssc fixef_rm fixef_tol
    collin_tol drop_intercept i_ref1 copy_data store_data lean weights_type
    use_compression use_mundlak :
  Forall (fun ev => is_bootstrap ev = false)
    (trace (feols fml data vcov weights ssc fixef_rm fixef_tol collin_tol
              drop_intercept i_ref1 copy_data store_data lean weights_type
              use_compression use_mundlak)).
Proof.
  unfold feols. trace_steps.
  - rewrite checks_trace_nil. constructor.
  - unfold return_fitted. destruct (_is_multiple_estimation _);
      trace_steps.
Qed.

Lemma compressed_fit_no_bootstrap fml data vcov weights weights_type kwargs :
  Forall (fun ev => is_bootstrap ev = false)
    (trace (_feols_compressed fml data vcov weights weights_type kwargs)).
Proof.
  unfold _feols_compressed. destruct fml; try constructor.
  trace_steps.
  - unfold _regression_compression. trace_steps.
  - apply feols_no_bootstrap.
Qed.

Lemma no_bootstrap_in l r s :
  Forall (fun ev => is_bootstrap ev = false) l -> ~ In (EvBootstrap r s) l.
Proof.
  intros HF Hin. rewrite Forall_forall in HF.
  apply list_elem_of_In in Hin. by specialize (HF _ Hin).
Qed.

(** Claim C9.  With [bootstrap=False] and a [vcov] other than ["iid"]
    and ["hetero"], [feols_compressed] never returns and never calls
    [fit.bootstrap]; when the compressed fit itself succeeds, the call
    emits the fallback warning and then raises [UnboundLocalError] (a
    [NameError]) on reading the local [kwargs], which only the
    [bootstrap=True] branch assigns. *)
Theorem bootstrap_fallback_unbound_kwargs (fml data vcov reps seed : pyval) :
  eq_str vcov "iid" = false -> eq_str vcov "hetero" = false ->
  let run := feols_compressed fml data vcov (PyBool false) reps seed in
  let fit := _feols_compressed fml data vcov PyNone (PyStr "aweights")
               [("ssc", ssc_function)] in
  (exists e, outcome run = inl e) /\
  (forall r s, ~ In (EvBootstrap r s) (trace run)) /\
  (forall f, outcome fit = inr f ->
     trace run = (trace fit ++ [EvWarn msg_bootstrap_fallback])%list /\
     exists e, outcome run = inl e /\ exn_cls e = UnboundLocalError /\
               is_NameError (exn_cls e) = true).
Proof.
  intros Hiid Hhet run fit.
  pose proof (compressed_fit_no_bootstrap fml data vcov PyNone
                (PyStr "aweights") [("ssc", ssc_function)]) as Hnb.
  subst run. unfold feols_compressed. fold fit in Hnb |- *.
  destruct fit as [t [e|f]] eqn:Hfit;
    cbn [mbind M_bind bind truth truthy ret]; rewrite ?Hiid, ?Hhet;
    cbn in *.
  - split; [eauto|]. split; [intros r s; by apply no_bootstrap_in|].
    intros f Hf; discriminate.
  - split; [eauto|]. split.
    + intros r s Hin. apply in_app_or in Hin as [Hin|[Hin|[]]];
        [by eapply no_bootstrap_in | discriminate].
    + intros f' _. split; [done|]. eauto.
Qed.

(** The branch [feols_compressed] takes when [bootstrap] is true. *)
Lemma feols_compressed_bootstrap_branch
    (fml data vcov bootstrap reps seed : pyval) :
  truth bootstrap = ret true ->
  feols_compressed fml data vcov bootstrap reps seed
  = (fit ← _feols_compressed fml data vcov PyNone (PyStr "aweights")
             [("ssc", ssc_function)] ;
     fit0 ← call (EvBootstrap reps (PyInt 12))
              (fit_bootstrap fit reps (PyInt 12) true _feols_compressed
                 [("data", data); ("fml", fml)]) ;
     fit1 ← call EvInference (fit_get_inference fit0) ; ret fit1).
Proof.
  intros Hb. unfold feols_compressed.
  destruct (_feols_compressed _ _ _ _ _ _) as [t [e|f]]; [reflexivity|].
  unfold mbind, M_bind, bind. rewrite Hb.
  unfold ret, call, read_local; cbn.
  destruct (fit_bootstrap _ _ _ _ _ _) as [e|f0]; cbn; [reflexivity|].
  destruct (fit_get_inference f0); reflexivity.
Qed.

(** Claim C10.  With [bootstrap] true (any value whose truth value is
    [True]), [feols_compressed] does the same whatever [seed] is, and
    every call of [fit.bootstrap] it makes passes the seed 12. *)
Theorem bootstrap_branch_ignores_seed
    (fml data vcov bootstrap reps s1 s2 : pyval) :
  truth bootstrap = ret true ->
  feols_compressed fml data vcov bootstrap reps s1
  = feols_compressed fml data vcov bootstrap reps s2 /\
  (forall r s,
     In (EvBootstrap r s)
        (trace (feols_compressed fml data vcov bootstrap reps s1)) ->
     r = reps /\ s = PyInt 12).
Proof.
  intros Hb. rewrite !(feols_compressed_bootstrap_branch _ _ _ _ _ _ Hb).
  split; [reflexivity|].
  intros r s Hin.
  match type of Hin with
  | In _ (trace ?m) =>
      assert (HF : Forall (fun ev => ev = EvBootstrap r s ->
                                     r = reps /\ s = PyInt 12) (trace m))
  end.
  { trace_steps.
    - eapply Forall_impl; [apply compressed_fit_no_bootstrap|].
      intros ev Hev ->. discriminate.
    - intros Hev; by inversion Hev.
    - intros Hev; discriminate. }
  rewrite Forall_forall in HF. apply list_elem_of_In in Hin.
  by apply (HF _ Hin).
Qed.

End CompressedProps.

Section TestProps.
Context `{REng : RitestEngine}.



End TestProps.


(** ** The claims on concrete requests *)

Section Concrete.

Local Abbreviation E := (Toy.engine true).

(** A NaN tolerance passes wherever a valid one does. *)
Lemma nan_tolerance_not_refused `{Eng : Engine} (a : feols_args) w uc :
  feols_checks a w uc = ret tt ->
  feols_checks (with_collin_tol a (PyFloat FNaN)) w uc = ret tt /\
  feols_checks (with_fixef_tol a (PyFloat FNaN)) w uc = ret tt.
Proof.
  unfold feols_checks. rewrite !checks_normal_form. intros Hv.
  cbn [first_failure checks_list not_bool_guard] in Hv.
  repeat match type of Hv with
         | (if ?b then _ else _) = _ =>
             let G := fresh "G" in destruct b eqn:G; [discriminate Hv|]
         end.
  cbn [first_failure checks_list not_bool_guard with_collin_tol
       with_fixef_tol fe_fml fe_data fe_vcov fe_weights fe_ssc fe_fixef_rm
       fe_fixef_tol fe_collin_tol fe_copy_data fe_store_data fe_lean
       fe_weights_type fe_use_mundlak].
  split;
    repeat match goal with G : _ = false |- _ => rewrite G; clear G end;
    reflexivity.
Qed.

(** Claim C6 at [collin_tol = nan] and at [fixef_tol = nan].  NaN does not
    lie strictly between 0 and 1, and yet both requests pass the input
    checks: the model object is constructed and estimated. *)
Lemma nan_tolerance_is_estimated :
  not_strictly_between_0_1 (fe_collin_tol Inputs.nan_collin_tol) /\
  not_strictly_between_0_1 (fe_fixef_tol Inputs.nan_fixef_tol) /\
  @call_feols E Inputs.nan_collin_tol
  = ([EvNewFixestMulti; EvPrepare "feols"; EvEstimate; EvFetch],
     inr (@RetFeols E [])) /\
  @call_feols E Inputs.nan_fixef_tol
  = ([EvNewFixestMulti; EvPrepare "feols"; EvEstimate; EvFetch],
     inr (@RetFeols E [])).
Proof.
  split; [intros (q & Hq & _); discriminate|].
  split; [intros (q & Hq & _); discriminate|].
  split; reflexivity.
Qed.

Lemma unsupported_combination_rejected_witness :
  (@unsupported_combination E Inputs.compressed_weighted /\
   @otherwise_valid E Inputs.compressed_weighted /\
   @run_request E Inputs.compressed_weighted
   = ([], inl (mkExn NotImplementedError [Lit msg_compression_weights]))) /\
  (@unsupported_combination E Inputs.poisson_iv /\
   @otherwise_valid E Inputs.poisson_iv /\
   @run_request E Inputs.poisson_iv
   = ([EvNewFixestMulti; EvPrepare "fepois"],
      inl (mkExn NotImplementedError [Lit msg_iv_poisson]))).
Proof.
  assert (Hu1 : @unsupported_combination E Inputs.compressed_weighted)
    by (split; [reflexivity | discriminate]).
  assert (Hv1 : @otherwise_valid E Inputs.compressed_weighted)
    by (split; reflexivity).
  assert (Hu2 : @unsupported_combination E Inputs.poisson_iv)
    by (exists "", "Y ~ X1 | f3 | X2 ~ Z1"; repeat split).
  assert (Hv2 : @otherwise_valid E Inputs.poisson_iv)
    by (split; reflexivity).
  pose proof (@unsupported_combination_rejected E _ Hu1) as (_ & _ & H1).
  pose proof (@unsupported_combination_rejected E _ Hu2) as (_ & _ & H2).
  specialize (H1 Hv1). specialize (H2 Hv2).
  split; (split; [assumption|]); (split; [assumption|]).
  - destruct H1 as [Ho Ht]. apply injective_projections; assumption.
  - destruct H2 as [Ho Ht]. apply injective_projections; assumption.
Defined.

Lemma absent_column_w :
  names_absent_column (fe_weights Inputs.missing_weights)
    (fe_data Inputs.missing_weights).
Proof.
  exists "w", ["Y"; "X1"; "f3"; "group_id"].
  repeat split. cbn. intros [H|[H|[H|[H|[]]]]]; discriminate.
Defined.

Lemma missing_weights_column_is_assertion_witness :
  names_absent_column (fe_weights Inputs.missing_weights)
    (fe_data Inputs.missing_weights) /\
  @call_feols E Inputs.missing_weights
  = ([], inl (mkExn AssertionError [Lit msg_weights_column])).
Proof.
  split; [exact absent_column_w|].
  apply (@missing_weights_column_is_assertion E Inputs.missing_weights
           absent_column_w); reflexivity.
Defined.

(** Without assertions the column check is not run: a string [weights]
    passes the input checks wherever no weights at all does, whatever the
    columns of [data] are. *)
Lemma missing_column_passes_without_assertions `{Eng : Engine}
    (a : feols_args) (w : string) :
  python_debug = false ->
  feols_checks a PyNone (PyBool false) = ret tt ->
  feols_checks a (PyStr w) (PyBool false) = ret tt.
Proof.
  intros Hd. unfold feols_checks. rewrite !checks_normal_form. intros Hv.
  cbn [first_failure checks_list not_bool_guard] in Hv.
  repeat match type of Hv with
         | (if ?b then _ else _) = _ =>
             let G := fresh "G" in destruct b eqn:G; [discriminate Hv|]
         end.
  cbn [first_failure checks_list not_bool_guard]. rewrite Hd. clear Hd.
  repeat match goal with G : _ = false |- _ => rewrite G; clear G end.
  reflexivity.
Qed.

(** Claim C8 at [feols("Y ~ X1", data, weights="w")], where [data] has
    no column [w].  The column check is an [assert] statement, unlike the
    [raise] statements of the checks around it: under [python -O] it is
    not run, nothing is reported, and the model object is constructed
    and estimated; with assertions enabled the failure is the bare
    [AssertionError] of that statement. *)
Lemma missing_weights_column_unreported_without_assertions :
  names_absent_column (fe_weights Inputs.missing_weights)
    (fe_data Inputs.missing_weights) /\
  @call_feols (Toy.engine false) Inputs.missing_weights
  = ([EvNewFixestMulti; EvPrepare "feols"; EvEstimate; EvFetch],
     inr (@RetFeols (Toy.engine false) [])) /\
  @call_feols E Inputs.missing_weights
  = ([], inl (mkExn AssertionError [Lit msg_weights_column])).
Proof.
  split; [exact absent_column_w|]. split; reflexivity.
Qed.

Local Abbreviation CE := (ToyCompressed.engine true).

Lemma bootstrap_fallback_unbound_kwargs_witness :
  eq_str Inputs.vcov_cluster "iid" = false /\
  eq_str Inputs.vcov_cluster "hetero" = false /\
  exists e,
    outcome (@feols_compressed E CE (PyStr "Y ~ X1 | f3") Toy.data
               Inputs.vcov_cluster (PyBool false) (PyInt 1000) PyNone)
    = inl e /\
    exn_cls e = UnboundLocalError.
Proof.
  split; [reflexivity|]. split; [reflexivity|].
  pose proof (@bootstrap_fallback_unbound_kwargs E CE (PyStr "Y ~ X1 | f3")
                Toy.data Inputs.vcov_cluster (PyInt 1000) PyNone
                eq_refl eq_refl) as (_ & _ & H3).
  destruct (H3 (@RetFeols E []) eq_refl) as (_ & e & He & Hc & _).
  exists e. split; assumption.
Defined.

Lemma bootstrap_branch_ignores_seed_witness :
  truth (PyBool true) = ret true /\
  @feols_compressed E CE (PyStr "Y ~ X1 | f3") Toy.data (PyStr "iid")
    (PyBool true) (PyInt 1000) (PyInt 1)
  = @feols_compressed E CE (PyStr "Y ~ X1 | f3") Toy.data (PyStr "iid")
      (PyBool true) (PyInt 1000) (PyInt 2).
Proof.
  split; [reflexivity|].
  exact (proj1 (@bootstrap_branch_ignores_seed E CE (PyStr "Y ~ X1 | f3")
                  Toy.data (PyStr "iid") (PyBool true) (PyInt 1000)
                  (PyInt 1) (PyInt 2) eq_refl)).
Defined.

Local Abbreviation RE := (ToyRitest.engine true).

End Concrete.

(** * Further properties of [estimation.py] *)

Section Acceptance.
Context `{Eng : Engine}.

Lemma tolerance_accepted_guards (v : pyval) :
  tolerance_accepted v <->
  negb (is_float v) = false /\ le_lit v 0 = false /\ ge_lit v 1 = false.
Proof.
  split.
  - intros [->|(q & -> & H0 & H1)]; [done|].
    cbn. unfold le_lit, ge_lit, fge; cbn. repeat split.
    + apply not_true_is_false. rewrite Qle_bool_iff. by apply Qlt_not_le.
    + apply not_true_is_false. rewrite Qle_bool_iff. by apply Qlt_not_le.
  - destruct v as [| | |f| | | | |]; cbn; try (intros (? & _); discriminate).
    unfold le_lit, ge_lit, fge; cbn. intros (_ & Hle & Hge).
    destruct f as [q| | |]; cbn in *; try discriminate.
    + right. exists q. split; [done|].
      split; apply Qnot_le_lt; rewrite <- Qle_bool_iff; congruence.
    + by left.
Qed.

Lemma in_strs_is_str v l : in_strs v l = true -> is_str v = true.
Proof.
  unfold in_strs. rewrite existsb_exists. intros (s & _ & H).
  destruct v; done.
Qed.

Lemma weights_accepted_guards (weights data : pyval) :
  weights_accepted weights data <->
  negb (is_str weights || is_none weights) = false /\
  negb (is_none weights) && python_debug &&
    negb (match columns_of data with
          | Some cols => in_strs weights cols
          | None => false
          end) = false.
Proof.
  split.
  - intros [->|(w & -> & Hcol)]; [done|]. split; [done|]. cbn.
    destruct python_debug; [|done].
    destruct (Hcol eq_refl) as (cols & -> & Hin).
    apply in_strs_In in Hin. by rewrite Hin.
  - intros [Hty Hcol].
    destruct weights as [| | | |w| | | |]; try discriminate; [by left|].
    right. exists w. split; [done|]. intros Hd. rewrite Hd in Hcol.
    cbn in Hcol. destruct (columns_of data) as [cols|]; [|discriminate].
    exists cols. split; [done|]. apply in_strs_In.
    by destruct (in_strs (PyStr w) cols).
Qed.

Ltac split_guards H :=
  cbn [first_failure checks_list not_bool_guard] in H;
  repeat match type of H with
         | (if ?b then _ else _) = _ =>
             let G := fresh "G" in destruct b eqn:G; [discriminate H|]
         end.

(** The input checks return normally on the accepted arguments and on
    no others. *)
Theorem input_checks_accept_exactly fml data vcov weights ssc fixef_rm
    collin_tol copy_data store_data lean fixef_tol weights_type
    use_compression use_mundlak :
  _estimation_input_checks fml data vcov weights ssc fixef_rm collin_tol
    copy_data store_data lean fixef_tol weights_type use_compression
    use_mundlak = ret tt
  <->
  accepted_arguments fml data vcov weights fixef_rm collin_tol copy_data
    store_data lean fixef_tol weights_type use_compression use_mundlak.
Proof.
  rewrite checks_normal_form. unfold accepted_arguments.
  rewrite !tolerance_accepted_guards, weights_accepted_guards. split.
  - intros Hv. split_guards Hv. clear Hv.
    repeat match goal with
           | G : negb _ = false |- _ => apply negb_false_iff in G
           end.
    repeat match goal with
           | |- _ /\ _ => split
           | |- _ = _ => first [assumption | reflexivity]
           end.
    + destruct (is_pandas data), (is_polars data); auto; discriminate.
    + destruct vcov; auto; discriminate.
    + destruct use_compression as [|b| | | | | | |]; try discriminate.
      exists b. split; [reflexivity|]. intros ->.
      destruct weights; [reflexivity | discriminate ..].
  - intros (Hf & Hd & Hv & Hrm & (Hc1 & Hc2 & Hc3) & (Hw1 & Hw2) & Hcd & Hsd
            & Hl & (Ht1 & Ht2 & Ht3) & Hwt & (b & -> & Hb) & Hm).
    cbn [first_failure checks_list not_bool_guard].
    rewrite Hf, Hrm, (in_strs_is_str _ _ Hrm), Hc1, Hc2, Hc3, Hw1, Hw2, Hcd,
      Hsd, Hl, Ht1, Ht2, Ht3, Hwt, Hm. cbn.
    replace (negb (is_pandas data) && negb (is_polars data)) with false
      by (destruct Hd as [-> | ->]; cbn; by rewrite ?andb_false_r).
    replace (negb (is_str vcov || is_dict vcov || is_none vcov)) with false
      by (destruct Hv as [-> | [-> | ->]]; cbn; by rewrite ?orb_true_r).
    destruct b; [|done]. by rewrite (Hb eq_refl).
Qed.

End Acceptance.

Section Kinds.
Context `{Eng : Engine}.

Lemma first_failure_raised_at l e :
  outcome (first_failure l) = inl e <-> raised_at l e.
Proof.
  induction l as [|[b e'] l IH]; cbn; [split; [discriminate|tauto]|].
  destruct b; cbn.
  - split; [intros [= ->]; by left | intros [[_ ->]|[? _]]; done].
  - rewrite IH. split; [by right | intros [[? _]|[_ ?]]; done].
Qed.

Lemma input_checks_explained fml data vcov weights ssc fixef_rm
    collin_tol copy_data store_data lean fixef_tol weights_type
    use_compression use_mundlak :
  let run :=
    _estimation_input_checks fml data vcov weights ssc fixef_rm collin_tol
      copy_data store_data lean fixef_tol weights_type use_compression
      use_mundlak in
  trace run = [] /\
  forall e, outcome run = inl e ->
            exception_explained e data weights use_compression.
Proof.
  cbv zeta. split; [apply checks_trace_nil|].
  intros e. rewrite checks_normal_form, first_failure_raised_at.
  unfold checks_list, not_bool_guard, exception_explained.
  cbn [raised_at]. intros He.
  repeat match type of He with
         | (_ /\ _) \/ _ =>
             destruct He as [[Hb ->]|[? He]]; [cbn; try exact I|]
         end; try contradiction.
  - apply andb_true_iff in Hb as [Hb Hcol].
    apply andb_true_iff in Hb as [Hw Hd]. split; [done|].
    destruct weights as [| | | |w| | | |]; try discriminate.
    exists w. split; [done|]. intros cols Hc Hin. rewrite Hc in Hcol.
    apply in_strs_In in Hin. by rewrite Hin in Hcol.
  - apply andb_true_iff in Hb as [Hb Hw].
    destruct use_compression as [|[]| | | | | | |]; try discriminate.
    split; [done|]. by destruct weights.
Qed.

(** The input checks never call the engine, and an exception they raise
    is a [TypeError] or a [ValueError], or an [AssertionError] for a
    weights column that is missing, or a [NotImplementedError] for
    compression with weights. *)
Theorem input_checks_raise_explained fml data vcov weights ssc fixef_rm
    collin_tol copy_data store_data lean fixef_tol weights_type
    use_compression use_mundlak :
  let run :=
    _estimation_input_checks fml data vcov weights ssc fixef_rm collin_tol
      copy_data store_data lean fixef_tol weights_type use_compression
      use_mundlak in
  trace run = [] /\
  forall e, outcome run = inl e ->
            exception_explained e data weights use_compression.
Proof. apply input_checks_explained. Qed.

End Kinds.

Section EntryPoints.
Context `{Eng : Engine}.

Lemma call_bind_trace {A B} ev (r : exn + A) (k : A -> M B) :
  exists t, trace (x ← call ev r ; k x) = ev :: t.
Proof.
  destruct r as [e|a]; [by exists []|].
  rewrite call_bind. eauto.
Qed.

Lemma kinds_of_explained e data weights uc :
  exception_explained e data weights uc ->
  (exn_cls e = TypeError \/ exn_cls e = ValueError) \/
  (exn_cls e = AssertionError /\ exists w, weights = PyStr w) \/
  (exn_cls e = NotImplementedError /\ uc = PyBool true).
Proof.
  unfold exception_explained. destruct (exn_cls e); try tauto;
    first [ intros (_ & w & -> & _); right; left; eauto
          | intros [-> _]; right; right; eauto ].
Qed.

(** An exception that reaches the caller before any engine call is one
    of five kinds for [feols] and one of three for [fepois], which can
    raise neither the weights assertion nor the compression error. *)
Theorem exceptions_before_engine (r : request) e :
  run_request r = ([], inl e) -> raised_before_engine r (exn_cls e).
Proof.
  destruct r as [a|p]; cbn [run_request raised_before_engine].
  - unfold call_feols, feols. rewrite raise_if_seq.
    destruct (negb (is_none (fe_i_ref1 a))); [intros [= <-]; cbn; tauto|].
    match goal with
    | |- context [_estimation_input_checks ?f ?d ?v ?w ?s ?rm ?ct ?cd ?sd
                    ?l ?ft ?wt ?uc ?um] =>
        pose proof (input_checks_explained f d v w s rm ct cd sd l ft
                      wt uc um) as [Ht Hk];
        destruct (_estimation_input_checks f d v w s rm ct cd sd l ft wt
                    uc um) as [t [e'|[]]]
    end; cbn in Ht; subst t.
    + intros [= <-]. specialize (Hk e' eq_refl).
      apply kinds_of_explained in Hk. tauto.
    + rewrite ret_seq. intros Hrun.
      match type of Hrun with
      | ?m = _ => assert (Ht : trace m = []) by (by rewrite Hrun)
      end.
      destruct (call_bind_trace EvNewFixestMulti
                  (FixestMulti_new (fe_data a) (fe_copy_data a)
                     (fe_store_data a) (fe_lean a) (fe_fixef_tol a)
                     (fe_weights_type a) (fe_use_compression a)
                     (Some (fe_use_mundlak a)))
                  (fun fixest =>
                     fixest0 ← call (EvPrepare "feols")
                       (_prepare_estimation fixest "feols" (fe_fml a)
                          (fe_vcov a) (fe_weights a) (fe_ssc a)
                          (fe_fixef_rm a) (fe_drop_intercept a)) ;
                     fixest1 ← call EvEstimate
                       (_estimate_all_models fixest0 (fe_vcov a) None None
                          (fe_collin_tol a)) ;
                     return_fitted fixest1)) as [t' Ht'].
      rewrite Ht' in Ht. discriminate.
  - unfold call_fepois, fepois. rewrite raise_if_seq.
    destruct (negb (is_none (fp_i_ref1 p))); [intros [= <-]; cbn; tauto|].
    cbv zeta.
    match goal with
    | |- context [_estimation_input_checks ?f ?d ?v ?w ?s ?rm ?ct ?cd ?sd
                    ?l ?ft ?wt ?uc ?um] =>
        pose proof (input_checks_explained f d v w s rm ct cd sd l ft
                      wt uc um) as [Ht Hk];
        destruct (_estimation_input_checks f d v w s rm ct cd sd l ft wt
                    uc um) as [t [e'|[]]]
    end; cbn in Ht; subst t.
    + intros [= <-]. specialize (Hk e' eq_refl).
      apply kinds_of_explained in Hk as [Hk|[[_ [w Hw]]|[_ Hc]]];
        [tauto | discriminate | discriminate].
    + rewrite ret_seq. intros Hrun.
      match type of Hrun with
      | ?m = _ => assert (Ht : trace m = []) by (by rewrite Hrun)
      end.
      match type of Ht with
      | trace (mbind ?k (call ?ev ?r)) = _ =>
          destruct (call_bind_trace ev r k) as [t' Ht']
      end.
      rewrite Ht' in Ht. discriminate.
Qed.

End EntryPoints.

Section Pipeline.
Context `{Eng : Engine}.

Ltac open_checks :=
  match goal with
  | |- context [_estimation_input_checks ?f ?d ?v ?w ?s ?rm ?ct ?cd ?sd
                  ?l ?ft ?wt ?uc ?um] =>
      let Ht := fresh "Ht" in
      pose proof (checks_trace_nil f d v w s rm ct cd sd l ft wt uc um) as Ht;
      destruct (_estimation_input_checks f d v w s rm ct cd sd l ft wt
                  uc um) as [? [?|[]]];
      cbn in Ht; subst
  end.

Ltac prefix_done :=
  cbn; split; [eexists; reflexivity|];
  split; intros ? Heq; try discriminate Heq;
  inversion Heq; subst;
  first [reflexivity | split; [reflexivity | assumption]].

(** The engine is called in one order only: the model object is
    constructed, the formula prepared, the models estimated, and the
    single model fetched.  A run stops somewhere along that sequence; it
    returns a fitted model only at its end, and a multiple estimation
    just before the fetch. *)
Theorem engine_calls_in_order (r : request) :
  trace (run_request r) `prefix_of` pipeline r /\
  (forall f, outcome (run_request r) = inr (RetFeols f) ->
             trace (run_request r) = pipeline r) /\
  (forall m, outcome (run_request r) = inr (RetMulti m) ->
             trace (run_request r) = take 3 (pipeline r) /\
             _is_multiple_estimation m = true).
Proof.
  destruct r as [a|p]; unfold pipeline; cbn [run_request estimation_name].
  - unfold call_feols, feols, return_fitted. rewrite raise_if_seq.
    destruct (negb (is_none (fe_i_ref1 a))); [prefix_done|].
    open_checks; [prefix_done|]. rewrite ret_seq.
    unfold mbind, M_bind, bind, call, ret.
    destruct (FixestMulti_new _ _ _ _ _ _ _ _) as [?|fx0]; [prefix_done|].
    destruct (_prepare_estimation fx0 _ _ _ _ _ _ _) as [?|fx1];
      [prefix_done|].
    destruct (_estimate_all_models fx1 _ _ _ _) as [?|fx2]; [prefix_done|].
    destruct (_is_multiple_estimation fx2) eqn:Hm; [prefix_done|].
    destruct (fetch_model fx2 0 false); prefix_done.
  - unfold call_fepois, fepois, return_fitted. rewrite raise_if_seq.
    destruct (negb (is_none (fp_i_ref1 p))); [prefix_done|]. cbv zeta.
    open_checks; [prefix_done|]. rewrite ret_seq.
    unfold mbind, M_bind, bind, call, ret, raise_if, raise.
    destruct (FixestMulti_new _ _ _ _ _ _ _ _) as [?|fx0]; [prefix_done|].
    destruct (_prepare_estimation fx0 _ _ _ _ _ _ _) as [?|fx1];
      [prefix_done|].
    destruct (_is_iv fx1); [prefix_done|].
    destruct (_estimate_all_models fx1 _ _ _ _) as [?|fx2]; [prefix_done|].
    destruct (_is_multiple_estimation fx2) eqn:Hm; [prefix_done|].
    destruct (fetch_model fx2 0 false); prefix_done.
Qed.

End Pipeline.

Section CompressedBranches.
Context `{CEng : CompressedEngine}.

Ltac trace_steps :=
  repeat match goal with
    | |- Forall _ (trace (raise_if _ _ _)) => apply trace_raise_if
    | |- Forall _ (trace (call _ _)) => apply trace_call; try reflexivity
    | |- Forall _ (trace (mbind _ _)) => apply trace_bind_Forall; [|intros]
    | |- Forall _ (trace (ret _)) => constructor
    | |- Forall _ (trace (index _ _)) => apply trace_index
    end.

Lemma compressed_fit_events fml data vcov weights weights_type kwargs :
  Forall (fun ev => is_fit_event ev = true)
    (trace (_feols_compressed fml data vcov weights weights_type kwargs)).
Proof.
  unfold _feols_compressed. destruct fml; try constructor.
  trace_steps.
  - unfold _regression_compression. trace_steps.
  - unfold feols. trace_steps.
    + rewrite checks_trace_nil. constructor.
    + unfold return_fitted. destruct (_is_multiple_estimation _); trace_steps.
Qed.

Lemma fit_event_in l ev :
  Forall (fun ev => is_fit_event ev = true) l -> In ev l ->
  is_fit_event ev = true.
Proof.
  intros HF Hin. rewrite Forall_forall in HF.
  apply list_elem_of_In in Hin. by apply HF.
Qed.

(** [feols_compressed] never reads its [seed] argument: in every branch,
    for every input, the run is the same for any two seeds. *)
Theorem feols_compressed_never_reads_seed
    (fml data vcov bootstrap reps s1 s2 : pyval) :
  feols_compressed fml data vcov bootstrap reps s1
  = feols_compressed fml data vcov bootstrap reps s2.
Proof.
  unfold feols_compressed.
  destruct (_feols_compressed _ _ _ _ _ _) as [t [e|f]]; [reflexivity|].
  unfold mbind, M_bind, bind.
  destruct (truth bootstrap) as [t' [e|[]]]; [reflexivity..|].
  destruct (eq_str vcov "iid"); [reflexivity|].
  destruct (eq_str vcov "hetero"); reflexivity.
Qed.

Ltac in_cases Hfit :=
  repeat match goal with
    | |- _ /\ _ => split
    | |- forall _, _ => intro
    end;
  repeat match goal with
    | Hin : In _ (_ ++ _)%list |- _ => apply in_app_or in Hin as [Hin|Hin]
    | Hin : In _ (_ :: _) |- _ => destruct Hin as [Hin|Hin]
    | Hin : In _ [] |- _ => destruct Hin
    | Hin : In _ ?t |- _ =>
        is_var t; exfalso; pose proof (fit_event_in _ _ Hfit Hin);
        discriminate
    | Heq : @eq event _ _ |- _ => first [discriminate Heq | inversion Heq; subst; clear Heq]
    end;
  try reflexivity; try assumption; try (left; reflexivity);
  try (right; reflexivity); eauto.

(** Which variance a run computes.  [fit.bootstrap] is called only when
    [bootstrap] is true, and then with seed 12; an analytic variance is
    assigned only when [bootstrap] is false and [vcov] is that kind; the
    fallback warning is emitted only when [bootstrap] is false and [vcov]
    is neither, and such a run never returns. *)
Theorem feols_compressed_variance_source
    (fml data vcov bootstrap reps seed : pyval) :
  let run := feols_compressed fml data vcov bootstrap reps seed in
  (forall r s, In (EvBootstrap r s) (trace run) ->
     truth bootstrap = ret true /\ r = reps /\ s = PyInt 12) /\
  (forall k, In (EvVcov k) (trace run) ->
     truth bootstrap = ret false /\ eq_str vcov k = true /\
     (k = "iid" \/ k = "hetero")) /\
  (forall m, In (EvWarn m) (trace run) ->
     truth bootstrap = ret false /\ eq_str vcov "iid" = false /\
     eq_str vcov "hetero" = false /\ exists e, outcome run = inl e).
Proof.
  cbv zeta. unfold feols_compressed.
  pose proof (compressed_fit_events fml data vcov PyNone (PyStr "aweights")
                [("ssc", ssc_function)]) as Hfit.
  destruct (_feols_compressed _ _ _ _ _ _) as [t [e|f]]; cbn in Hfit;
    [cbn; in_cases Hfit|].
  unfold mbind, M_bind, bind.
  assert (Htruth : trace (truth bootstrap) = [])
    by (unfold truth; by destruct bootstrap).
  destruct (truth bootstrap) as [t' [e|b]] eqn:Hb; cbn in Htruth; subst t';
    [cbn; in_cases Hfit|].
  destruct b.
  - unfold ret, call, read_local; cbn.
    destruct (fit_bootstrap _ _ _ _ _ _) as [e|f0]; cbn;
      [|destruct (fit_get_inference f0); cbn]; in_cases Hfit.
  - destruct (eq_str vcov "iid") eqn:Hiid;
      [|destruct (eq_str vcov "hetero") eqn:Hhet];
      unfold ret, call, read_local, raise; cbn.
    + destruct (assign_vcov_iid f) as [e|f0]; cbn;
        [|destruct (fit_get_inference f0); cbn]; in_cases Hfit.
    + destruct (assign_vcov_hetero f) as [e|f0]; cbn;
        [|destruct (fit_get_inference f0); cbn]; in_cases Hfit.
    + in_cases Hfit.
Qed.

(** A run that returns has given the fit its variance, by the bootstrap
    with seed 12 or by one of the two analytic formulas, and has then
    called [get_inference]; these are its last two steps. *)
Theorem feols_compressed_returns_after_inference
    (fml data vcov bootstrap reps seed : pyval) f :
  outcome (feols_compressed fml data vcov bootstrap reps seed) = inr f ->
  exists t ev,
    trace (feols_compressed fml data vcov bootstrap reps seed)
    = (t ++ [ev; EvInference])%list /\
    Forall (fun ev => is_fit_event ev = true) t /\
    variance_step reps ev.
Proof.
  unfold feols_compressed, variance_step.
  pose proof (compressed_fit_events fml data vcov PyNone (PyStr "aweights")
                [("ssc", ssc_function)]) as Hfit.
  destruct (_feols_compressed _ _ _ _ _ _) as [t [e|f1]]; cbn in Hfit;
    [discriminate|].
  unfold mbind, M_bind, bind.
  assert (Htruth : trace (truth bootstrap) = [])
    by (unfold truth; by destruct bootstrap).
  destruct (truth bootstrap) as [t' [e|b]] eqn:Hb; cbn in Htruth; subst t';
    [discriminate|].
  destruct b.
  - unfold ret, call, read_local; cbn.
    destruct (fit_bootstrap _ _ _ _ _ _) as [e|f0]; cbn; [discriminate|].
    destruct (fit_get_inference f0); cbn; [discriminate|]. intros _.
    exists t, (EvBootstrap reps (PyInt 12)). auto.
  - destruct (eq_str vcov "iid") eqn:Hiid;
      [|destruct (eq_str vcov "hetero") eqn:Hhet];
      unfold ret, call, read_local, raise; cbn.
    + destruct (assign_vcov_iid f1) as [e|f0]; cbn; [discriminate|].
      destruct (fit_get_inference f0); cbn; [discriminate|]. intros _.
      exists t, (EvVcov "iid"). auto.
    + destruct (assign_vcov_hetero f1) as [e|f0]; cbn; [discriminate|].
      destruct (fit_get_inference f0); cbn; [discriminate|]. intros _.
      exists t, (EvVcov "hetero"). auto.
    + discriminate.
Qed.

End CompressedBranches.

Section FormulaStrings.

Lemma split_on_lacks c s : lacks c s -> split_on c s = [s].
Proof.
  induction s as [|a s IH]; cbn; [done|]. intros [Hne Hs].
  destruct (Ascii.eqb_spec a c); [done|]. by rewrite IH.
Qed.

Lemma split_on_app c l r :
  lacks c l -> split_on c (l ++ String c r) = l :: split_on c r.
Proof.
  induction l as [|a l IH].
  - intros _. change (split_on c (String c r) = "" :: split_on c r).
    cbn. by rewrite Ascii.eqb_refl.
  - intros [Hne Hl].
    change (split_on c (String a (l ++ String c r)) = String a l :: split_on c r).
    cbn. destruct (Ascii.eqb_spec a c); [done|]. by rewrite IH.
Qed.

Lemma split_on_nonempty c s : split_on c s <> [].
Proof.
  destruct s as [|a s]; cbn; [done|].
  destruct (Ascii.eqb a c); [done|]. by destruct (split_on c s).
Qed.

Lemma split_on_remove_char c d s :
  c <> d -> split_on c (remove_char d s) = map (remove_char d) (split_on c s).
Proof.
  intros Hcd. induction s as [|a s IH]; cbn; [done|].
  destruct (split_on c s) as [|hd tl] eqn:Hs;
    [by apply split_on_nonempty in Hs|].
  destruct (Ascii.eqb_spec a d) as [->|Had].
  - destruct (Ascii.eqb_spec d c); [congruence|].
    rewrite IH. cbn. by rewrite Ascii.eqb_refl.
  - cbn. rewrite IH.
    destruct (Ascii.eqb_spec a c); cbn; [done|].
    destruct (Ascii.eqb_spec a d); congruence.
Qed.

Lemma split_on_replace_char c a b s :
  c <> a -> c <> b ->
  split_on c (replace_char a b s) = map (replace_char a b) (split_on c s).
Proof.
  intros Hca Hcb. induction s as [|x s IH]; cbn; [done|].
  destruct (split_on c s) as [|hd tl] eqn:Hs;
    [by apply split_on_nonempty in Hs|].
  rewrite IH. cbn.
  destruct (Ascii.eqb_spec x a) as [->|Hxa].
  - destruct (Ascii.eqb_spec b c); [congruence|].
    destruct (Ascii.eqb_spec a c); [congruence|]. cbn.
    by rewrite Ascii.eqb_refl.
  - destruct (Ascii.eqb_spec x c); cbn; [done|].
    destruct (Ascii.eqb_spec x a); congruence.
Qed.

Lemma remove_char_idem c s :
  remove_char c (remove_char c s) = remove_char c s.
Proof.
  induction s as [|a s IH]; cbn; [done|].
  destruct (Ascii.eqb_spec a c); [done|]. cbn.
  destruct (Ascii.eqb_spec a c); [done|]. by rewrite IH.
Qed.

Lemma replace_char_idem a b s :
  a <> b -> replace_char a b (replace_char a b s) = replace_char a b s.
Proof.
  intros Hab. induction s as [|x s IH]; cbn; [done|]. rewrite IH.
  destruct (Ascii.eqb_spec x a); [|destruct (Ascii.eqb_spec x a); congruence].
  destruct (Ascii.eqb_spec b a); congruence.
Qed.

Lemma remove_replace_comm c a b s :
  c <> a -> c <> b ->
  remove_char c (replace_char a b s) = replace_char a b (remove_char c s).
Proof.
  intros Hca Hcb. induction s as [|x s IH]; cbn; [done|].
  destruct (Ascii.eqb_spec x a) as [->|Hxa].
  - destruct (Ascii.eqb_spec b c); [congruence|].
    destruct (Ascii.eqb_spec a c); [congruence|]. cbn.
    by rewrite Ascii.eqb_refl, IH.
  - destruct (Ascii.eqb_spec x c); [done|]. cbn.
    destruct (Ascii.eqb_spec x a); [done|]. by rewrite IH.
Qed.

End FormulaStrings.

Section CompressedFormula.
Context `{CEng : CompressedEngine}.

(** A formula without ["~"] stops [feols_compressed] with an
    [IndexError] before polars or the engine is called. *)
Theorem feols_compressed_needs_tilde (f : string)
    (data vcov bootstrap reps seed : pyval) :
  lacks "~" f ->
  feols_compressed (PyStr f) data vcov bootstrap reps seed
  = ([], inl (mkExn IndexError [Lit "list index out of range"])).
Proof.
  intros Hf. unfold feols_compressed, _feols_compressed.
  by rewrite (split_on_lacks _ _ Hf).
Qed.

(** Spaces in the formula do not matter to the compressed fit. *)
Theorem compressed_fit_ignores_spaces (f : string)
    (data vcov weights weights_type : pyval) (kwargs : kwargs_t) :
  _feols_compressed (PyStr (remove_char " " f)) data vcov weights
    weights_type kwargs
  = _feols_compressed (PyStr f) data vcov weights weights_type kwargs.
Proof.
  unfold _feols_compressed. rewrite split_on_remove_char by done.
  destruct (split_on "~" f) as [|f0 [|f1 rest]]; [reflexivity..|].
  cbn [map index nth_error]. by rewrite !bind_ret_l, !remove_char_idem.
Qed.

(** The compressed fit reads ["|"] on the right-hand side as ["+"]:
    fixed effects are grouped on like any other covariate. *)
Theorem compressed_fit_reads_bar_as_plus (lhs rhs : string)
    (data vcov weights weights_type : pyval) (kwargs : kwargs_t) :
  lacks "~" lhs ->
  _feols_compressed (PyStr (lhs ++ String "~" (replace_char "|" "+" rhs)))
    data vcov weights weights_type kwargs
  = _feols_compressed (PyStr (lhs ++ String "~" rhs)) data vcov weights
      weights_type kwargs.
Proof.
  intros Hl. unfold _feols_compressed.
  rewrite !(split_on_app _ _ _ Hl), split_on_replace_char by done.
  destruct (split_on "~" rhs) as [|f1 rest]; [reflexivity|].
  cbn [map index nth_error]. rewrite !bind_ret_l.
  by rewrite remove_replace_comm, replace_char_idem by done.
Qed.

End CompressedFormula.

Section Compression.
Context `{CEng : CompressedEngine}.

Lemma length_flat_map_pair {A B} (f g : A -> B) (l : list A) :
  length (flat_map (fun x => [f x; g x]) l) = (2 * length l)%nat.
Proof. induction l as [|x l IH]; cbn; [done|]. rewrite IH. lia. Qed.

(** What [_regression_compression] asks of polars.  Without a dependent
    variable it stops with an [IndexError] before any polars call.
    Otherwise it makes one grouped aggregation and one [with_columns]:
    the aggregation has a count and, per dependent variable, a sum and a
    sum of squares, all read from the dependent variables; it creates
    the column [count]; and every mean reads only columns the
    aggregation has created. *)
Theorem regression_compression_plan (depvars covars : list string)
    (d : DataFrame) :
  (depvars = [] ->
   _regression_compression depvars covars d
   = ([], inl (mkExn IndexError [Lit "list index out of range"]))) /\
  (depvars <> [] ->
   exists aggs means,
     _regression_compression depvars covars d
     = (df ← call (EvPolars "group_by.agg") (pl_group_by_agg d covars aggs) ;
        call (EvPolars "with_columns") (pl_with_columns df means)) /\
     length aggs = S (2 * length depvars) /\
     length means = length depvars /\
     In "count" (map expr_alias aggs) /\
     (forall e c, In e aggs -> In c (expr_inputs e) -> In c depvars) /\
     (forall e c, In e means -> In c (expr_inputs e) ->
                  In c (map expr_alias aggs))).
Proof.
  split; [intros ->; reflexivity|].
  destruct depvars as [|v vs]; [done|]. intros _.
  unfold _regression_compression. cbn [index nth_error].
  rewrite bind_ret_l. eexists _, _. split; [reflexivity|].
  set (deps := v :: vs).
  split; [cbn [length]; by rewrite length_flat_map_pair|].
  split; [by rewrite length_map|].
  split; [by left|].
  split.
  - intros e c [<-|He] Hc.
    + cbn in Hc. destruct Hc as [<-|[]]. by left.
    + apply in_flat_map in He as (var & Hvar & [<-|[<-|[]]]);
        cbn in Hc; destruct Hc as [<-|[]]; exact Hvar.
  - intros e c He Hc. apply in_map_iff in He as (var & <- & Hvar).
    cbn in Hc. destruct Hc as [<-|[<-|[]]]; [|by left].
    right. apply in_map_iff. exists (PlSum var ("sum_" ++ var)).
    split; [reflexivity|]. apply in_flat_map. exists var.
    split; [exact Hvar | by left].
Qed.

End Compression.

(** * Properties of [panelview] *)

Module PanelProps.
Import Panel.

Section Laws.

Lemma pbind_inv {A B} (m : P A) (k : A -> P B) b :
  snd (x ← m ; k x) = inr b ->
  exists a, snd m = inr a /\ snd (k a) = inr b.
Proof.
  unfold mbind, P_bind, pbind. destruct m as [t [e|a]]; cbn; [done|].
  intros Hk. exists a. split; [done|]. by destruct (k a).
Qed.

Lemma ptrace_bind {A B} (Q : plot_event -> Prop) (m : P A) (k : A -> P B) :
  Forall Q (fst m) -> (forall a, Forall Q (fst (k a))) ->
  Forall Q (fst (x ← m ; k x)).
Proof.
  unfold mbind, P_bind, pbind. destruct m as [t [e|a]]; cbn; [done|].
  intros Ht Hk. specialize (Hk a). destruct (k a) as [t' r]; cbn in *.
  by apply Forall_app.
Qed.

Lemma pbind_trace_app {A B} (m : P A) (k : A -> P B) a :
  snd m = inr a -> fst (x ← m ; k x) = (fst m ++ fst (k a))%list.
Proof.
  unfold mbind, P_bind, pbind. destruct m as [t [e|a']]; cbn; [done|].
  intros [= ->]. by destruct (k a).
Qed.

Lemma pbind_raise {A B} (m : P A) (k : A -> P B) e :
  snd m = inl e -> (x ← m ; k x) = (fst m, inl e).
Proof.
  unfold mbind, P_bind, pbind. destruct m as [t [e'|a']]; cbn; [|done].
  by intros [= ->].
Qed.

End Laws.

Section Props.
Context `{Pd : Pandas}.

Ltac ptrace :=
  repeat match goal with
    | |- Forall _ (fst (mbind _ _)) => apply ptrace_bind; [|intros]
    | |- Forall _ (fst (pandas _)) => constructor
    | |- Forall _ (fst (pret _)) => constructor
    | |- Forall _ (fst (draw _)) => constructor; [try done|constructor]
    | |- Forall _ (fst (when ?b _)) => destruct b; unfold when
    | |- Forall _ (fst (read_f ?f)) => destruct f; constructor
    | |- Forall _ (fst (if ?b then _ else _)) => destruct b
    | |- Forall _ (fst (match ?x with _ => _ end)) => destruct x
    | |- Forall _ (fst (let '(_, _) := ?p in _)) => destruct p
    end.

Lemma plot_units_only_lines a d ids :
  Forall (fun ev => is_plot_line ev = true) (fst (plot_units a d ids)).
Proof.
  induction ids as [|u ids IH]; cbn [plot_units]; [constructor|].
  apply ptrace_bind; [|intros; exact IH].
  unfold plot_unit. ptrace.
Qed.

(** The two kinds of plot never mix: the treatment quilt ([matshow], the
    colorbar) is drawn only when [type] is not ["outcome"] or [outcome]
    is empty, and lines, the grid and the line legend only when it is
    ["outcome"] with an [outcome]. *)
Theorem panelview_draws_one_kind (a : args) :
  let outcome_mode := eq_str (type a) "outcome" && truthy (outcome a) in
  forall ev, In ev (fst (panelview a)) ->
    match ev with
    | Matshow | Colorbar | SetXTicks | SetYTicks => outcome_mode = false
    | PlotLine _ _ _ _ _ | Grid | Legend | SetXLim _ | SetYLim _ =>
        outcome_mode = true
    | _ => True
    end.
Proof.
  cbv zeta. intros ev Hin. apply list_elem_of_In in Hin. revert ev Hin.
  apply Forall_forall. unfold panelview.
  destruct (eq_str (type a) "outcome" && truthy (outcome a)).
  - unfold outcome_plot. ptrace.
    eapply Forall_impl; [apply plot_units_only_lines|].
    intros []; done.
  - unfold treatment_quilt. ptrace.
Qed.

Ltac open_pandas :=
  unfold mbind, P_bind, pbind, pandas, pret, draw, when, read_f;
  repeat (match goal with
          | |- context [pivot ?a ?b ?c ?d] => destruct (pivot a b c d)
          | |- context [sample ?a ?b] => destruct (sample a b)
          | |- context [drop_duplicates ?a] => destruct (drop_duplicates a)
          | |- context [sort_by_row_sum ?a] => destruct (sort_by_row_sum a)
          | |- context [if truthy ?x then _ else _] => destruct (truthy x)
          end; cbn).

(** The colorbar of the treatment quilt needs a figure of [panelview]'s
    own.  On axes passed in by the caller with [legend] set, the call
    never returns and never draws the colorbar; once the quilt is drawn
    it stops on the unbound local [f]. *)
Theorem quilt_legend_on_given_axes (a : args) (ax0 : axes) :
  eq_str (type a) "outcome" && truthy (outcome a) = false ->
  ax a = Some ax0 ->
  truthy (legend a) = true ->
  (exists e, snd (panelview a) = inl e) /\
  ~ In Colorbar (fst (panelview a)) /\
  (In Matshow (fst (panelview a)) ->
   panelview a
   = ([Matshow],
      inl (mkExn UnboundLocalError
             [Lit "local variable 'f' referenced before assignment"]))).
Proof.
  intros Hmode Hax Hleg. unfold panelview. rewrite Hmode.
  unfold treatment_quilt. rewrite Hax, Hleg. open_pandas;
    (split; [eauto|]); (split; [cbn; intuition discriminate|]);
    cbn; intros; try reflexivity; intuition discriminate.
Qed.

Ltac invert_binds H :=
  repeat first
    [ apply pbind_inv in H as (? & ? & H)
    | match type of H with
      | context [let '(_, _) := ?p in _] => destruct p; cbn in H
      end ].

(** On axes passed in by the caller, [panelview] creates no figure and
    returns those axes. *)
Theorem panelview_returns_given_axes (a : args) (ax0 r : axes) :
  ax a = Some ax0 ->
  snd (panelview a) = inr r ->
  r = ax0 /\ forall fs dpi, ~ In (Subplots fs dpi) (fst (panelview a)).
Proof.
  intros Hax Hr. split.
  - unfold panelview in Hr.
    destruct (eq_str (type a) "outcome" && truthy (outcome a)).
    + unfold outcome_plot in Hr. rewrite Hax in Hr.
      apply pbind_inv in Hr as (d & _ & Hr).
      apply pbind_inv in Hr as (p & _ & Hr).
      apply pbind_inv in Hr as (p' & _ & Hr).
      apply pbind_inv in Hr as ([d' p''] & _ & Hr).
      apply pbind_inv in Hr as (x & Hx & Hr). cbn in Hx.
      invert_binds Hr. cbn in Hr. congruence.
    + unfold treatment_quilt in Hr. rewrite Hax in Hr.
      apply pbind_inv in Hr as (q & _ & Hr).
      apply pbind_inv in Hr as (q1 & _ & Hr).
      apply pbind_inv in Hr as (q2 & _ & Hr).
      apply pbind_inv in Hr as (q3 & _ & Hr).
      apply pbind_inv in Hr as ([f x] & Hx & Hr). cbn in Hx.
      invert_binds Hr. cbn in Hr. congruence.
  - intros fs dpi Hin. apply list_elem_of_In in Hin. revert Hin.
    assert (HF : Forall (fun ev => forall fs dpi, ev <> Subplots fs dpi)
                   (fst (panelview a))).
    { unfold panelview, outcome_plot, treatment_quilt.
      destruct (ax a) as [ax1|]; [|discriminate].
      destruct (eq_str (type a) "outcome" && truthy (outcome a)); ptrace.
      eapply Forall_impl; [apply plot_units_only_lines|].
      intros []; done. }
    rewrite Forall_forall in HF. intros Hin. by apply (HF _ Hin fs dpi).
Qed.

Lemma lines_of_cons times u ids :
  lines_of times (u :: ids)
  = ((if decide (times u <> []) then 2 else 1) + lines_of times ids)%nat.
Proof.
  unfold lines_of. rewrite filter_cons. destruct (decide (times u <> []));
    cbn; lia.
Qed.

(** The loop over the units draws every line it is asked for: when the
    treatment times of each unit can be read, it finishes having drawn
    one line for every unit never treated and two for every treated one,
    and a unit is drawn in grey exactly when it has no treatment time. *)
Theorem plot_units_lines (a : args) (d : frame) (ids : list pyval)
    (times : pyval -> list pyval) :
  (forall u, In u ids ->
     treatment_times d (unit_ a) u (treat a) (time a) = inr (times u)) ->
  snd (plot_units a d ids) = inr tt /\
  length (fst (plot_units a d ids)) = lines_of times ids /\
  (forall u, In (PlotLine u Whole "#999999" (1 # 2) None)
               (fst (plot_units a d ids))
             <-> In u ids /\ times u = []).
Proof.
  induction ids as [|u ids IH]; intros Ht.
  - cbn. repeat split; tauto.
  - destruct IH as (Hs & Hl & Hg); [intros; apply Ht; by right|].
    cbn [plot_units]. unfold plot_unit. rewrite (Ht u) by (by left).
    rewrite lines_of_cons.
    destruct (plot_units a d ids) as [t [e|[]]]; [discriminate|].
    cbn in Hl, Hg. unfold mbind, P_bind, pbind, pandas, draw. cbn.
    destruct (times u) as [|t0 ts] eqn:Hu; cbn.
    + destruct (decide _) as [Hd|_]; [done|]. cbn.
      split; [done|]. split; [by rewrite Hl|].
      intros v. rewrite Hg. split.
      * intros [Heq|[Hv Hv']]; [|tauto]. inversion Heq; subst. tauto.
      * intros [[Heq|Hv] Hv']; [left; by rewrite Heq | right; tauto].
    + destruct (decide _) as [_|Hd]; [|exfalso; apply Hd; discriminate]. cbn.
      split; [done|]. split; [by rewrite Hl|].
      intros v. rewrite Hg. split.
      * intros [Heq|[Heq|[Hv Hv']]]; [discriminate..|tauto].
      * intros [[Heq|Hv] Hv']; [congruence | right; right; tauto].
Qed.

End Props.
End PanelProps.

(** * The further properties on concrete inputs *)

Section ConcreteExtras.

Local Abbreviation E := (Toy.engine true).
Local Abbreviation CE := (ToyCompressed.engine true).
Local Abbreviation PE := ToyPanel.engine.

Lemma exceptions_before_engine_witness :
  @run_request E Inputs.compressed_weighted
  = ([], inl (mkExn NotImplementedError [Lit msg_compression_weights])) /\
  raised_before_engine Inputs.compressed_weighted NotImplementedError.
Proof.
  split; [reflexivity|].
  exact (@exceptions_before_engine E Inputs.compressed_weighted
           (mkExn NotImplementedError [Lit msg_compression_weights])
           eq_refl).
Defined.

Lemma feols_compressed_returns_after_inference_witness :
  outcome (@feols_compressed E CE (PyStr "Y ~ X1 | f3") Toy.data
             (PyStr "hetero") (PyBool false) (PyInt 1000) PyNone)
  = inr (@RetFeols E []) /\
  exists t ev,
    trace (@feols_compressed E CE (PyStr "Y ~ X1 | f3") Toy.data
             (PyStr "hetero") (PyBool false) (PyInt 1000) PyNone)
    = (t ++ [ev; EvInference])%list /\
    Forall (fun ev => is_fit_event ev = true) t /\
    variance_step (PyInt 1000) ev.
Proof.
  split; [reflexivity|].
  exact (@feols_compressed_returns_after_inference E CE
           (PyStr "Y ~ X1 | f3") Toy.data (PyStr "hetero") (PyBool false)
           (PyInt 1000) PyNone (@RetFeols E []) eq_refl).
Defined.

Lemma lacks_tilde_Y_X1 : lacks "~" "Y X1".
Proof. cbn. repeat split; discriminate. Defined.

Lemma lacks_tilde_Y : lacks "~" "Y".
Proof. cbn. repeat split; discriminate. Defined.

Lemma feols_compressed_needs_tilde_witness :
  lacks "~" "Y X1" /\
  @feols_compressed E CE (PyStr "Y X1") Toy.data (PyStr "iid")
    (PyBool false) (PyInt 1000) PyNone
  = ([], inl (mkExn IndexError [Lit "list index out of range"])).
Proof.
  split; [exact lacks_tilde_Y_X1|].
  exact (@feols_compressed_needs_tilde E CE "Y X1" Toy.data (PyStr "iid")
           (PyBool false) (PyInt 1000) PyNone lacks_tilde_Y_X1).
Defined.

Lemma compressed_fit_reads_bar_as_plus_witness :
  lacks "~" "Y" /\
  @_feols_compressed E CE (PyStr "Y~X1+f3") Toy.data (PyStr "iid") PyNone
    (PyStr "aweights") []
  = @_feols_compressed E CE (PyStr "Y~X1|f3") Toy.data (PyStr "iid") PyNone
      (PyStr "aweights") [].
Proof.
  split; [exact lacks_tilde_Y|].
  exact (@compressed_fit_reads_bar_as_plus E CE "Y" "X1|f3" Toy.data
           (PyStr "iid") PyNone (PyStr "aweights") [] lacks_tilde_Y).
Defined.

Lemma panelview_draws_one_kind_witness :
  In Panel.Matshow
    (fst (@Panel.panelview PE
            (ToyPanel.call (PyStr "outcome") PyNone (PyBool false) None))) /\
  eq_str (PyStr "outcome") "outcome" && truthy PyNone = false.
Proof.
  assert (Hin : In Panel.Matshow
    (fst (@Panel.panelview PE
            (ToyPanel.call (PyStr "outcome") PyNone (PyBool false) None))))
    by (right; left; reflexivity).
  split; [exact Hin|].
  exact (@PanelProps.panelview_draws_one_kind PE
           (ToyPanel.call (PyStr "outcome") PyNone (PyBool false) None)
           Panel.Matshow Hin).
Defined.

Lemma quilt_legend_on_given_axes_witness :
  @Panel.panelview PE
    (ToyPanel.call PyNone PyNone (PyBool true) (Some 7%nat))
  = ([Panel.Matshow],
     inl (mkExn UnboundLocalError
            [Lit "local variable 'f' referenced before assignment"])).
Proof.
  refine (proj2 (proj2 (@PanelProps.quilt_legend_on_given_axes PE
            (ToyPanel.call PyNone PyNone (PyBool true) (Some 7%nat)) 7%nat
            eq_refl eq_refl eq_refl)) _).
  left. reflexivity.
Defined.

Lemma panelview_returns_given_axes_witness :
  snd (@Panel.panelview PE
         (ToyPanel.call (PyStr "outcome") (PyStr "Y") (PyBool true)
            (Some 7%nat))) = inr 7%nat /\
  forall fs dpi,
    ~ In (Panel.Subplots fs dpi)
        (fst (@Panel.panelview PE
                (ToyPanel.call (PyStr "outcome") (PyStr "Y") (PyBool true)
                   (Some 7%nat)))).
Proof.
  split; [reflexivity|].
  exact (proj2 (@PanelProps.panelview_returns_given_axes PE
                  (ToyPanel.call (PyStr "outcome") (PyStr "Y") (PyBool true)
                     (Some 7%nat)) 7%nat 7%nat eq_refl eq_refl)).
Defined.

Lemma plot_units_lines_witness :
  length (fst (@Panel.plot_units PE
                 (ToyPanel.call (PyStr "outcome") (PyStr "Y") (PyBool false)
                    None)
                 ToyPanel.panel [PyInt 1; PyInt 2]))
  = @Panel.lines_of (ToyPanel.times_in ToyPanel.panel) [PyInt 1; PyInt 2].
Proof.
  refine (proj1 (proj2 (@PanelProps.plot_units_lines PE
            (ToyPanel.call (PyStr "outcome") (PyStr "Y") (PyBool false) None)
            ToyPanel.panel [PyInt 1; PyInt 2]
            (ToyPanel.times_in ToyPanel.panel) _))).
  intros u _. reflexivity.
Defined.

Lemma two_is_out_of_range : tolerance_out_of_range (PyFloat (FFin 2)).
Proof. cbn. intros [_ H]. unfold Qlt in H. cbn in H. lia. Defined.

Lemma feols_refuses_invalid_configuration_witness :
  tolerance_out_of_range (fe_collin_tol MoreInputs.collin_tol_two) /\
  exists e, @call_feols E MoreInputs.collin_tol_two = ([], inl e).
Proof.
  split; [exact two_is_out_of_range|].
  apply (@feols_refuses_invalid_configuration E MoreInputs.collin_tol_two).
  right. left. exact two_is_out_of_range.
Defined.

Lemma fepois_refuses_invalid_configuration_witness :
  in_strs (fp_fixef_rm MoreInputs.fixef_rm_unknown) ["none"; "singleton"]
  = false /\
  exists e, @call_fepois E MoreInputs.fixef_rm_unknown = ([], inl e).
Proof.
  split; [reflexivity|].
  apply (@fepois_refuses_invalid_configuration E MoreInputs.fixef_rm_unknown).
  right. right. right. left. reflexivity.
Defined.

End ConcreteExtras.
